(** * recalbox-manager: the ROM views ([project/manager_frontend/views/roms.py])

    A shallow embedding of the three views of [roms.py]
    ([SystemsListView], [RomListView], [RomUploadJsonView]) together with
    the small part of Python's [os], [os.path] and [json] modules and of
    Django's settings, messages and responses that they touch.

    Python 2 byte strings are [string]; a directory listing is a [list];
    a [dict] is a [gmap]; an exception is the [Raise] outcome of a state
    monad whose state is the process and its environment (filesystem,
    Django settings, flash messages). *)

From Stdlib Require Import Ascii NArith.
From stdpp Require Import gmap strings list sorting.

(** ** Python strings *)

Module Py.

(** [s.startswith(p)] *)
Definition startswith (s p : string) : bool := String.prefix p s.

(** [s.endswith("/")], the only use [posixpath.join] makes of it. *)
Fixpoint endswith_slash (s : string) : bool :=
  match s with
  | EmptyString => false
  | String c EmptyString => Ascii.eqb c "/"%char
  | String _ t => endswith_slash t
  end.

(** The one-character strings of Python: a line feed, a double quote. *)
Definition newline : string := String "010"%char EmptyString.
Definition dquote : string := String "034"%char EmptyString.

(** [sep.join(l)] *)
Definition join (sep : string) (l : list string) : string :=
  String.concat sep l.

(** The truth value of a string: empty strings are false. *)
Definition truthy (s : string) : bool :=
  match s with EmptyString => false | _ => true end.

(** [template.format(arg)] for templates that use only the automatic
    replacement field [{}]: every occurrence of the two characters is
    replaced by the argument. *)
Fixpoint format (template arg : string) : string :=
  match template with
  | String "{"%char (String "}"%char t) => arg +:+ format t arg
  | String c t => String c (format t arg)
  | EmptyString => EmptyString
  end.

End Py.

(** ** [posixpath] *)

Module Posixpath.

(** [posixpath.join(a, b)] with one component [b]. *)
Definition join (a b : string) : string :=
  if Py.startswith b "/" then b
  else if orb (String.eqb a "") (Py.endswith_slash a) then a +:+ b
  else a +:+ "/" +:+ b.

Fixpoint has_slash (s : string) : bool :=
  match s with
  | EmptyString => false
  | String c t => orb (Ascii.eqb c "/"%char) (has_slash t)
  end.

(** [posixpath.basename(p)]: [p[p.rfind('/') + 1:]], the part of [p]
    after its last slash, all of [p] when it has none. *)
Fixpoint basename (p : string) : string :=
  match p with
  | EmptyString => EmptyString
  | String c t =>
      if has_slash t then basename t
      else if Ascii.eqb c "/"%char then t
      else p
  end.

End Posixpath.

(** ** Exceptions, the process state and the monad of views *)

Inductive exn :=
| Http404
| OSError
| KeyError (key : string)
| AttributeError
| UnicodeDecodeError.

Inductive outcome (A : Type) :=
| Ok (a : A)
| Raise (e : exn).
Arguments Ok {A} a.
Arguments Raise {A} e.

(** What [os.stat] tells about a path. *)
Inductive file_kind := Regular | Directory | Special.

Record stat_result := { st_kind : file_kind; st_size : N }.

(** The filesystem as the two system calls the views make answer it:
    [os.stat] ([None] when it raises [os.error]) and [os.listdir] ([None]
    when it raises [OSError]; the order of the names is the system's). *)
Record filesystem := {
  fs_stat : string -> option stat_result;
  fs_listdir : string -> option (list string)
}.

(** Values held by the configuration dicts. *)
Inductive pyval :=
| PStr (s : string)
| PList (l : list string)
| PBool (b : bool)
| PNone.

(** [django.conf.settings]: the three settings the views read. The manifest
    is a dict of dicts, the default entry a dict. *)
Record settings := {
  RECALBOX_ROMS_PATH : string;
  RECALBOX_MANIFEST : gmap string (gmap string pyval);
  RECALBOX_SYSTEM_DEFAULT : gmap string pyval
}.

(** System calls made, oldest first. *)
Inductive os_call :=
| CallStat (path : string)
| CallListdir (path : string)
| CallRemove (path : string).

(** [django.contrib.messages] levels. *)
Definition SUCCESS : N := 25.

Record world := {
  fs : filesystem;
  conf : settings;
  flash : list (N * string);
  calls : list os_call
}.

Definition M (A : Type) : Type := world -> outcome A * world.

Definition ret {A} (a : A) : M A := fun w => (Ok a, w).

Definition raise {A} (e : exn) : M A := fun w => (Raise e, w).

Definition bind {A B} (m : M A) (k : A -> M B) : M B :=
  fun w =>
    match m w with
    | (Ok a, w') => k a w'
    | (Raise e, w') => (Raise e, w')
    end.

(** A computation that touches nothing and returns or raises. *)
Definition lift {A} (o : outcome A) : M A := fun w => (o, w).

Declare Scope view_scope.
Delimit Scope view_scope with view.
Notation "x <- m ;; k" := (bind m (fun x => k))
  (at level 100, m at next level, right associativity) : view_scope.
Notation "m ;;; k" := (bind m (fun _ => k))
  (at level 100, right associativity) : view_scope.
Local Open Scope view_scope.

(** [for item in l: acc = body(item, acc)] *)
Fixpoint for_each {A S} (l : list A) (body : A -> S -> M S) (acc : S) : M S :=
  match l with
  | [] => ret acc
  | item :: rest => acc' <- body item acc ;; for_each rest body acc'
  end.

Definition get_settings : M settings := fun w => (Ok (conf w), w).

Definition set_system_default (d : gmap string pyval) : M unit :=
  fun w =>
    (Ok tt,
     {| fs := fs w;
        conf := {| RECALBOX_ROMS_PATH := RECALBOX_ROMS_PATH (conf w);
                   RECALBOX_MANIFEST := RECALBOX_MANIFEST (conf w);
                   RECALBOX_SYSTEM_DEFAULT := d |};
        flash := flash w;
        calls := calls w |}).

Definition log_call (c : os_call) : M unit :=
  fun w =>
    (Ok tt,
     {| fs := fs w; conf := conf w; flash := flash w;
        calls := calls w ++ [c] |}).

(** [d[k]] on a dict. *)
Definition getitem {V} (d : gmap string V) (k : string) : M V :=
  match d !! k with
  | Some v => ret v
  | None => raise (KeyError k)
  end.

(** ** [os] and [os.path] *)

Module Os.

Definition stat (path : string) : M (option stat_result) :=
  log_call (CallStat path) ;;;
  fun w => (Ok (fs_stat (fs w) path), w).

(** [os.listdir(path)] *)
Definition listdir (path : string) : M (list string) :=
  log_call (CallListdir path) ;;;
  fun w =>
    match fs_listdir (fs w) path with
    | Some names => (Ok names, w)
    | None => (Raise OSError, w)
    end.

(** [os.path.exists(path)]: [os.stat] did not raise. *)
Definition path_exists (path : string) : M bool :=
  st <- stat path ;;
  ret (match st with Some _ => true | None => false end).

(** [os.path.isdir(path)] *)
Definition path_isdir (path : string) : M bool :=
  st <- stat path ;;
  ret (match st with
       | Some {| st_kind := Directory |} => true
       | _ => false
       end).

(** [os.path.isfile(path)] *)
Definition path_isfile (path : string) : M bool :=
  st <- stat path ;;
  ret (match st with
       | Some {| st_kind := Regular |} => true
       | _ => false
       end).

(** [os.path.getsize(path)]: [os.stat(path).st_size] *)
Definition path_getsize (path : string) : M N :=
  st <- stat path ;;
  match st with
  | Some r => ret (st_size r)
  | None => raise OSError
  end.

End Os.

(** ** [sorted(l, key=itemgetter(0))]

    Python's sort is stable and compares the keys only; byte strings
    compare byte by byte. Every stable sort returns the same list, here
    by insertion. *)

Fixpoint insert_by_key {A} (key : A -> string) (x : A) (l : list A) : list A :=
  match l with
  | [] => [x]
  | y :: l' =>
      if String.ltb (key x) (key y) then x :: l
      else y :: insert_by_key key x l'
  end.

Fixpoint sort_from {A} (key : A -> string) (sorted : list A) (l : list A) : list A :=
  match l with
  | [] => sorted
  | x :: l' => sort_from key (insert_by_key key x sorted) l'
  end.

Definition sorted_by_key {A} (key : A -> string) (l : list A) : list A :=
  sort_from key [] l.

(** ** [SystemsListView] *)

Module SystemsListView.

(** One turn of the loop of [get_system_list]. *)
Definition system_dirs_step (path item : string)
    (system_dirs : list (string * pyval)) : M (list (string * pyval)) :=
  is_dir <- Os.path_isdir (Posixpath.join path item) ;;
  if is_dir && negb (Py.startswith item ".") then
    st <- get_settings ;;
    match RECALBOX_MANIFEST st !! item with
    | Some entry =>
        name <- getitem entry "name" ;;
        ret (system_dirs ++ [(item, name)])
    | None => ret (system_dirs ++ [(item, PStr item)])
    end
  else ret system_dirs.

Definition get_system_list : M (list (string * pyval)) :=
  st <- get_settings ;;
  let path := RECALBOX_ROMS_PATH st in
  items <- Os.listdir path ;;
  system_dirs <- for_each items (system_dirs_step path) [] ;;
  ret (sorted_by_key fst system_dirs).

End SystemsListView.

(** ** [RomListView] *)

(** [self.system_manifest] is a reference to a dict owned by the settings:
    an entry of the manifest, or the default entry itself. *)
Inductive manifest_ref :=
| ManifestEntry (key : string)
| SystemDefault.

(** The attributes [init_system] gives the view. *)
Record rom_view := {
  system_key : string;
  system_path : string;
  system_manifest : manifest_ref
}.

(** A bound form, as far as the views look at it: its key, the messages
    of [errors.as_data()] per field, and what [save()] does and returns.
    The form classes live in [project.manager_frontend.forms.roms]. *)
Record form (R : Type) := {
  form_key : string;
  errors : gmap string (list string);
  save : M R
}.
Arguments form_key {R} f.
Arguments errors {R} f.
Arguments save {R} f.

(** [messages.success(request, text)] *)
Definition messages_success (text : string) : M unit :=
  fun w =>
    (Ok tt,
     {| fs := fs w; conf := conf w;
        flash := flash w ++ [(SUCCESS, text)];
        calls := calls w |}).

(** [ugettext] with no translation catalog active: the message id. *)
Definition ugettext (msgid : string) : string := msgid.

Module RomListView.

Definition init_system (kwargs : gmap string string) : M rom_view :=
  match kwargs !! "system" with
  | None => raise AttributeError
  | Some key =>
      st <- get_settings ;;
      let path := Posixpath.join (RECALBOX_ROMS_PATH st) key in
      present <- Os.path_exists path ;;
      missing <-
        (if negb present then ret true
         else is_dir <- Os.path_isdir path ;;
              if negb is_dir then ret true
              else ret (Py.startswith key ".")) ;;
      if (missing : bool) then raise Http404
      else
        let default_manifest := RECALBOX_SYSTEM_DEFAULT st in
        set_system_default
          (<["name" := PStr key]> (<["key" := PStr key]> default_manifest)) ;;;
        st' <- get_settings ;;
        ret {| system_key := key;
               system_path := path;
               system_manifest :=
                 match RECALBOX_MANIFEST st' !! key with
                 | Some _ => ManifestEntry key
                 | None => SystemDefault
                 end |}
  end.

(** One turn of the loop of [get_rom_choices]. *)
Definition rom_list_step (path item : string)
    (rom_list : list (string * N)) : M (list (string * N)) :=
  is_file <- Os.path_isfile (Posixpath.join path item) ;;
  if is_file && negb (Py.startswith item ".") then
    size <- Os.path_getsize (Posixpath.join path item) ;;
    ret (rom_list ++ [(item, size)])
  else ret rom_list.

Definition get_rom_choices (self : rom_view) : M (list (string * N)) :=
  items <- Os.listdir (system_path self) ;;
  rom_list <- for_each items (rom_list_step (system_path self)) [] ;;
  ret (sorted_by_key fst rom_list).

(** The keyword arguments [get_delete_form_kwargs] adds. *)
Record delete_form_kwargs := {
  romchoices : list (string * N);
  kw_system : string
}.

Definition get_delete_form_kwargs (self : rom_view) : M delete_form_kwargs :=
  choices <- get_rom_choices self ;;
  ret {| romchoices := choices; kw_system := system_key self |}.

Definition upload_form_valid (form : form string) : M unit :=
  uploaded_file <- save form ;;
  messages_success
    (Py.format (ugettext "File has been uploaded: {}")
               (Posixpath.basename uploaded_file)).

(** [form.save()] of the delete form returns a list of paths, or [None]. *)
Definition delete_form_valid (form : form (option (list string))) : M unit :=
  deleted_files <- save form ;;
  match deleted_files with
  | Some ((_ :: _) as files) =>
      let deleted := Py.join ", " (Posixpath.basename <$> files) in
      messages_success (Py.format (ugettext "Deleted file(s): {}") deleted)
  | _ => ret tt
  end.

Section Dispatch.
(** [MultiFormView.get] and [MultiFormView.post] of
    [project.utils.views], reached through [super]. *)
Context {Response : Type}.
Variable super_get : rom_view -> M Response.
Variable super_post : rom_view -> M Response.

Definition get (kwargs : gmap string string) : M Response :=
  self <- init_system kwargs ;;
  super_get self.

Definition post (kwargs : gmap string string) : M Response :=
  self <- init_system kwargs ;;
  super_post self.
End Dispatch.

End RomListView.

(** ** [json.dumps] and [django.http] responses *)

Module Json.

Definition hex_digit (n : N) : ascii :=
  ascii_of_N (if (n <? 10)%N then 48 + n else 87 + n).

(** [format(n, '04x')] for [n] below 65536. *)
Definition hex4 (n : N) : string :=
  String (hex_digit (n / 4096))
    (String (hex_digit (n / 256 mod 16))
       (String (hex_digit (n / 16 mod 16))
          (String (hex_digit (n mod 16)) EmptyString))).

(** A continuation byte of UTF-8. *)
Definition is_cont (b : N) : bool := ((128 <=? b) && (b <=? 191))%N.

(** [s.decode('utf-8')] on the bytes of a string, as CPython 2.7 decodes:
    code points, or [None] where it raises [UnicodeDecodeError]. Lead
    bytes 0xC2-0xDF, 0xE0-0xEF and 0xF0-0xF4 take one, two and three
    continuation bytes; overlong forms and code points above 0x10FFFF are
    refused; the three-byte forms of surrogates are accepted. *)
Fixpoint decode_utf8 (bytes : list N) : option (list N) :=
  match bytes with
  | [] => Some []
  | b0 :: rest =>
      if (b0 <? 128)%N then cons b0 <$> decode_utf8 rest
      else if ((194 <=? b0) && (b0 <=? 223))%N then
        match rest with
        | b1 :: rest' =>
            if is_cont b1
            then cons ((b0 - 192) * 64 + (b1 - 128))%N <$> decode_utf8 rest'
            else None
        | _ => None
        end
      else if ((224 <=? b0) && (b0 <=? 239))%N then
        match rest with
        | b1 :: b2 :: rest' =>
            if is_cont b1 && is_cont b2
               && negb ((b0 =? 224) && (b1 <? 160))%N
            then cons ((b0 - 224) * 4096 + (b1 - 128) * 64 + (b2 - 128))%N
                   <$> decode_utf8 rest'
            else None
        | _ => None
        end
      else if ((240 <=? b0) && (b0 <=? 244))%N then
        match rest with
        | b1 :: b2 :: b3 :: rest' =>
            if is_cont b1 && is_cont b2 && is_cont b3
               && negb ((b0 =? 240) && (b1 <? 144))%N
               && negb ((b0 =? 244) && (143 <? b1))%N
            then cons ((b0 - 240) * 262144 + (b1 - 128) * 4096
                       + (b2 - 128) * 64 + (b3 - 128))%N
                   <$> decode_utf8 rest'
            else None
        | _ => None
        end
      else None
  end.

(** What [encode_basestring_ascii] writes for one code point:
    [ESCAPE_DCT], the character itself when it is printable ASCII, the
    [\uXXXX] form below 0x10000 and a surrogate pair from there on. *)
Definition escape_code_point (n : N) : string :=
  if (n =? 34)%N then "\" +:+ Py.dquote
  else if (n =? 92)%N then "\\"
  else if (n =? 10)%N then "\n"
  else if (n =? 13)%N then "\r"
  else if (n =? 9)%N then "\t"
  else if (n =? 8)%N then "\b"
  else if (n =? 12)%N then "\f"
  else if ((32 <=? n) && (n <=? 126))%N then String (ascii_of_N n) EmptyString
  else if (n <? 65536)%N then "\u" +:+ hex4 n
  else
    let v := (n - 65536)%N in
    "\u" +:+ hex4 (55296 + v / 1024) +:+ "\u" +:+ hex4 (56320 + v mod 1024).

Fixpoint escape_code_points (cps : list N) : string :=
  match cps with
  | [] => EmptyString
  | n :: rest => escape_code_point n +:+ escape_code_points rest
  end.

Definition bytes_of (s : string) : list N :=
  N_of_ascii <$> String.list_ascii_of_string s.

(** The escaped text of a byte string: the string is decoded as UTF-8
    (a string of ASCII bytes decodes to itself), then escaped code point
    by code point. *)
Definition escape (s : string) : outcome string :=
  match decode_utf8 (bytes_of s) with
  | Some cps => Ok (escape_code_points cps)
  | None => Raise UnicodeDecodeError
  end.

(** [encode_basestring_ascii(s)] *)
Definition encode_string (s : string) : outcome string :=
  match escape s with
  | Ok text => Ok (Py.dquote +:+ text +:+ Py.dquote)
  | Raise e => Raise e
  end.

Definition encode_item (kv : string * string) : outcome string :=
  match encode_string kv.1 with
  | Ok key =>
      match encode_string kv.2 with
      | Ok value => Ok (key +:+ ": " +:+ value)
      | Raise e => Raise e
      end
  | Raise e => Raise e
  end.

Fixpoint encode_items (d : list (string * string)) : outcome (list string) :=
  match d with
  | [] => Ok []
  | kv :: rest =>
      match encode_item kv with
      | Ok item =>
          match encode_items rest with
          | Ok items => Ok (item :: items)
          | Raise e => Raise e
          end
      | Raise e => Raise e
      end
  end.

(** [json.dumps(d)] for a dict of byte strings, with the default
    separators and [ensure_ascii]. *)
Definition dumps (d : list (string * string)) : outcome string :=
  match encode_items d with
  | Ok items => Ok ("{" +:+ Py.join ", " items +:+ "}")
  | Raise e => Raise e
  end.

End Json.

(** A dict of strings whose order of keys is kept, as [json.dumps] shows
    it: [d[k] = v]. *)
Fixpoint dict_set (k v : string) (d : list (string * string)) : list (string * string) :=
  match d with
  | [] => [(k, v)]
  | (k', v') :: d' =>
      if String.eqb k' k then (k, v) :: d' else (k', v') :: dict_set k v d'
  end.

Inductive response_klass := HttpResponse | HttpResponseBadRequest.

Definition klass_status (k : response_klass) : N :=
  match k with
  | HttpResponse => 200
  | HttpResponseBadRequest => 400
  end.

(** A [django.http.HttpResponse]; the content type is its [Content-Type]
    header. *)
Record response := {
  status_code : N;
  content : string;
  headers : gmap string string
}.

(** [response_klass(content, content_type=content_type)] *)
Definition new_response (k : response_klass) (body content_type : string) : response :=
  {| status_code := klass_status k;
     content := body;
     headers := {[ "Content-Type" := content_type ]} |}.

(** [response[name] = value] *)
Definition set_header (name value : string) (r : response) : response :=
  {| status_code := status_code r;
     content := content r;
     headers := <[name := value]> (headers r) |}.

(** The media type of a [Content-Type] value: what precedes the first
    [;]. *)
Fixpoint media_type (content_type : string) : string :=
  match content_type with
  | EmptyString => EmptyString
  | String c t => if Ascii.eqb c ";"%char then EmptyString else String c (media_type t)
  end.

(** ** [RomUploadJsonView] *)

(** What [json_response] is given: a string, or an object for
    [json.dumps]. *)
Inductive backend :=
| BackendString (s : string)
| BackendDict (d : list (string * string)).

(** The forms [form_invalid] receives are those of [enabled_forms]. *)
Inductive any_form :=
| AnUploadForm (f : form string)
| ADeleteForm (f : form (option (list string))).

Definition any_form_key (f : any_form) : string :=
  match f with
  | AnUploadForm f => form_key f
  | ADeleteForm f => form_key f
  end.

Definition any_form_errors (f : any_form) : gmap string (list string) :=
  match f with
  | AnUploadForm f => errors f
  | ADeleteForm f => errors f
  end.

Module RomUploadJsonView.

Definition json_response (backend : backend) (klass : response_klass)
    : outcome response :=
  match
    match backend with
    | BackendString s => Ok s
    | BackendDict d => Json.dumps d
    end
  with
  | Raise e => Raise e
  | Ok body =>
      let content_type := "application/json; charset=utf-8" in
      let response := new_response klass body content_type in
      let response := set_header "Pragma" "no-cache" response in
      Ok (set_header "Cache-Control"
            "no-cache, no-store, must-revalidate, max-age=0" response)
  end.

Definition upload_form_valid (form : form string) : M response :=
  uploaded_file <- save form ;;
  lift (json_response (BackendDict [("status", "success")]) HttpResponse).

(** One turn of the loop of [form_invalid] over [args]. *)
Definition error_msg_step (form : any_form) (error_msg : string) : string :=
  if String.eqb (any_form_key form) "upload" then
    match any_form_errors form !! "rom" with
    | Some messages =>
        let error_context := messages in
        if (1 <? length error_context)%nat then Py.join Py.newline error_context
        else if (length error_context =? 1)%nat then Py.join "" error_context
        else error_msg
    | None => error_msg
    end
  else error_msg.

Definition form_invalid (args : list any_form) : outcome response :=
  let forms_errors := [("error", "Unknow error occured")] in
  let error_msg := foldl (fun msg form => error_msg_step form msg) "" args in
  let forms_errors :=
    if Py.truthy error_msg then dict_set "error" error_msg forms_errors
    else forms_errors in
  json_response (BackendDict forms_errors) HttpResponseBadRequest.

End RomUploadJsonView.

(** ** The delete form and its submission *)

(** [os.remove(path)]: the path stops existing and leaves every listing
    it was joined from. Directories and missing paths raise [OSError]. *)
Definition remove_path (path : string) (f : filesystem) : filesystem :=
  {| fs_stat := fun p => if String.eqb p path then None else fs_stat f p;
     fs_listdir := fun d =>
       filter (fun name => Posixpath.join d name ≠ path) <$> fs_listdir f d |}.

Definition os_remove (path : string) : M unit :=
  log_call (CallRemove path) ;;;
  fun w =>
    match fs_stat (fs w) path with
    | None | Some {| st_kind := Directory |} => (Raise OSError, w)
    | Some _ =>
        (Ok tt,
         {| fs := remove_path path (fs w); conf := conf w;
            flash := flash w; calls := calls w |})
    end.

(** [try: body except OSError: fallback] *)
Definition try_oserror {A} (body : M A) (fallback : M A) : M A :=
  fun w =>
    match body w with
    | (Raise OSError, w') => fallback w'
    | r => r
    end.

Inductive validation_error :=
| UnknownFile (name : string).

(** Modelled from the spec: [RomDeleteForm] of
    [project.manager_frontend.forms.roms], which is not among the sources.
    Validation: every selected name must appear in the rom choices; each
    name not found is a validation error naming it. Saving: each selected
    file is removed from the system's directory, and the files actually
    removed are returned. *)
Module RomDeleteForm.

Definition is_choice (romchoices : list (string * N)) (name : string) : bool :=
  existsb (String.eqb name) romchoices.*1.

Definition clean (romchoices : list (string * N)) (selected : list string)
    : list validation_error :=
  UnknownFile <$> filter (fun name => is_choice romchoices name = false) selected.

Definition save_step (system_path name : string) (deleted : list string)
    : M (list string) :=
  let path := Posixpath.join system_path name in
  try_oserror (os_remove path ;;; ret (deleted ++ [path])) (ret deleted).

Definition save (system_path : string) (selected : list string)
    : M (option (list string)) :=
  deleted <- for_each selected (save_step system_path) [] ;;
  ret (Some deleted).

End RomDeleteForm.

(** What a classic form submission ends in. *)
Inductive submission :=
| Redirected
| Rerendered (errs : list validation_error).

(** Modelled from the spec: the delete branch of [MultiFormView.post] of
    [project.utils.views], which is not among the sources. The delete form
    is built from [get_delete_form_kwargs] and validated; when valid,
    [delete_form_valid] runs and the view redirects; when not, the page is
    rendered again with the errors and nothing is saved. *)
Definition delete_submission (self : rom_view) (selected : list string)
    : M submission :=
  kwargs <- RomListView.get_delete_form_kwargs self ;;
  match RomDeleteForm.clean (RomListView.romchoices kwargs) selected with
  | [] =>
      RomListView.delete_form_valid
        {| form_key := "delete"; errors := ∅;
           save := RomDeleteForm.save (system_path self) selected |} ;;;
      ret Redirected
  | errs => ret (Rerendered errs)
  end.

(** ** Worked filesystem: [/roms/snes] holds [mario.smc] (1024 bytes), a
    hidden directory and a hidden file; [/roms/.cache] is hidden. *)

Module Demo.

Definition reg (size : N) := Some {| st_kind := Regular; st_size := size |}.
Definition dir := Some {| st_kind := Directory; st_size := 4096 |}.

Definition table : list (string * option stat_result * option (list string)) :=
  [ ("/roms", dir, Some ["snes"; ".cache"; "readme.txt"; "atari"]);
    ("/roms/snes", dir, Some ["zelda.smc"; ".hidden"; "mario.smc"; ".keep"; "saves"]);
    ("/roms/.cache", dir, Some []);
    ("/roms/atari", dir, Some []);
    ("/roms/readme.txt", reg 12, None);
    ("/roms/snes/zelda.smc", reg 2048, None);
    ("/roms/snes/mario.smc", reg 1024, None);
    ("/roms/snes/.keep", reg 0, None);
    ("/roms/snes/.hidden", dir, Some []);
    ("/roms/snes/saves", dir, Some []) ].

Definition find_path (p : string) :=
  List.find (fun row => String.eqb row.1.1 p) table.

Definition disk : filesystem :=
  {| fs_stat := fun p => row ← find_path p; row.1.2;
     fs_listdir := fun p => row ← find_path p; row.2 |}.

Definition manifest : gmap string (gmap string pyval) :=
  {[ "snes" := {[ "name" := PStr "Super Nintendo";
                  "extensions" := PList ["smc"] ]} ]}.

Definition template : gmap string pyval :=
  {[ "name" := PStr ""; "extensions" := PList [] ]}.

Definition config : settings :=
  {| RECALBOX_ROMS_PATH := "/roms";
     RECALBOX_MANIFEST := manifest;
     RECALBOX_SYSTEM_DEFAULT := template |}.

Definition start : world :=
  {| fs := disk; conf := config; flash := []; calls := [] |}.

(** The same process with no ROMs directory at all. *)
Definition empty_disk : filesystem :=
  {| fs_stat := fun _ => None; fs_listdir := fun _ => None |}.

Definition start_no_roms : world :=
  {| fs := empty_disk; conf := config; flash := []; calls := [] |}.

Definition snes : rom_view :=
  {| system_key := "snes"; system_path := "/roms/snes";
     system_manifest := ManifestEntry "snes" |}.

(** Bound forms: an upload that was stored, one refused for its file,
    one refused for another field only, and delete forms. *)
Definition stored_upload : form string :=
  {| form_key := "upload"; errors := ∅;
     save := ret "/roms/snes/yoshi.smc" |}.

Definition refused_upload : form string :=
  {| form_key := "upload";
     errors := {[ "rom" := ["Extension is not allowed"; "File is empty"];
                  "comment" := ["Too long"] ]};
     save := raise OSError |}.

Definition misfilled_upload : form string :=
  {| form_key := "upload";
     errors := {[ "comment" := ["Too long"] ]};
     save := raise OSError |}.

Definition refused_delete : form (option (list string)) :=
  {| form_key := "delete";
     errors := {[ "roms" := ["Select a file"] ]};
     save := ret None |}.

Definition two_deleted : form (option (list string)) :=
  {| form_key := "delete"; errors := ∅;
     save := RomDeleteForm.save "/roms/snes" ["zelda.smc"; "mario.smc"] |}.

End Demo.

(** ** Vocabulary of the statements *)

(** The world [w] after the system calls [cs], nothing else changed. *)
Definition logged (w : world) (cs : list os_call) : world :=
  {| fs := fs w; conf := conf w; flash := flash w; calls := calls w ++ cs |}.

Definition is_stat_call (c : os_call) : Prop :=
  match c with CallStat _ => True | _ => False end.

Definition is_regular (st : option stat_result) : bool :=
  match st with Some {| st_kind := Regular |} => true | _ => false end.

Definition is_directory (st : option stat_result) : bool :=
  match st with Some {| st_kind := Directory |} => true | _ => false end.

(** The entry [name] of the directory [path] is a regular file that is not
    hidden. *)
Definition rom_kept (f : filesystem) (path name : string) : bool :=
  is_regular (fs_stat f (Posixpath.join path name)) && negb (Py.startswith name ".").

(** The entry [name] of the directory [path] is a directory that is not
    hidden. *)
Definition system_kept (f : filesystem) (path name : string) : bool :=
  is_directory (fs_stat f (Posixpath.join path name)) && negb (Py.startswith name ".").

(** Ascending order of the keys. *)
Definition by_key {A} (key : A -> string) (a b : A) : Prop :=
  String.leb (key a) (key b) = true.

(** Ascending order of the first components. *)
Definition key_le {A} : relation (string * A) := by_key fst.

(** What the loop of [get_rom_choices] appends for one entry. *)
Definition rom_entry (f : filesystem) (path item : string) : list (string * N) :=
  if rom_kept f path item then
    match fs_stat f (Posixpath.join path item) with
    | Some st => [(item, st_size st)]
    | None => []
    end
  else [].

(** The listing [get_rom_choices] computes from a filesystem. *)
Definition rom_choices_of (f : filesystem) (path : string)
    : outcome (list (string * N)) :=
  match fs_listdir f path with
  | Some items => Ok (sorted_by_key fst (flat_map (rom_entry f path) items))
  | None => Raise OSError
  end.

Definition is_remove_call (c : os_call) : Prop :=
  match c with CallRemove _ => True | _ => False end.

(** The response carries the headers of a JSON answer that must not be
    cached. *)
Definition no_cache_json (r : response) : Prop :=
  headers r !! "Pragma" = Some "no-cache"
  /\ headers r !! "Cache-Control"
     = Some "no-cache, no-store, must-revalidate, max-age=0"
  /\ exists content_type,
       headers r !! "Content-Type" = Some content_type
       /\ media_type content_type = "application/json".

(** The JSON text of an object with one member. *)
Definition json_object1 (name value : string) : string :=
  "{" +:+ Py.dquote +:+ name +:+ Py.dquote +:+ ": "
      +:+ Py.dquote +:+ value +:+ Py.dquote +:+ "}".

(** The messages on the uploaded-file field of a form. *)
Definition rom_messages (f : any_form) : list string :=
  default [] (any_form_errors f !! "rom").

(** The display name the manifest resolves a key to. *)
Definition display_name (manifest : gmap string (gmap string pyval)) (key : string)
    : pyval :=
  match manifest !! key with
  | Some entry => default PNone (entry !! "name")
  | None => PStr key
  end.

(** What the loop of [get_system_list] appends for one entry. *)
Definition system_entry (f : filesystem) (manifest : gmap string (gmap string pyval))
    (path item : string) : list (string * pyval) :=
  if system_kept f path item then [(item, display_name manifest item)] else [].

(** Every entry of the manifest configures a name. *)
Definition named_manifest (manifest : gmap string (gmap string pyval)) : Prop :=
  map_Forall (fun _ entry => is_Some (entry !! "name")) manifest.

(** ** Template contexts and the keyword arguments of the upload form *)

(** Values the views put into a template context or hand to a form. *)
Inductive ctxval :=
| CStr (s : string)
| CVal (v : pyval)
| CManifest (r : manifest_ref)
| CLen (n : nat)
| CSystems (l : list (string * pyval)).

(** Reading a dict of the settings through [self.system_manifest]. *)
Definition deref (r : manifest_ref) : M (gmap string pyval) :=
  st <- get_settings ;;
  match r with
  | ManifestEntry key => getitem (RECALBOX_MANIFEST st) key
  | SystemDefault => ret (RECALBOX_SYSTEM_DEFAULT st)
  end.

Module SystemsListContext.
Section Super.
(** [TemplateView.get_context_data], reached through [super]. *)
Variable super_get_context_data : M (gmap string ctxval).

(** [SystemsListView.get_context_data] *)
Definition get_context_data : M (gmap string ctxval) :=
  context <- super_get_context_data ;;
  st <- get_settings ;;
  let systems_path := RECALBOX_ROMS_PATH st in
  systems_list <- SystemsListView.get_system_list ;;
  ret (<["systems_list" := CSystems systems_list]>
         (<["systems_path" := CStr systems_path]> context)).
End Super.
End SystemsListContext.

Module RomListContext.

(** [RomListView.get_upload_form_kwargs] *)
Definition get_upload_form_kwargs (self : rom_view) (kwargs : gmap string ctxval)
    : gmap string ctxval :=
  <["system" := CStr (system_key self)]>
    (<["system_manifest" := CManifest (system_manifest self)]> kwargs).

Section Super.
(** [MultiFormView.get_context_data] of [project.utils.views], reached
    through [super]. *)
Variable super_get_context_data : M (gmap string ctxval).

(** [RomListView.get_context_data] *)
Definition get_context_data (self : rom_view) : M (gmap string ctxval) :=
  context <- super_get_context_data ;;
  manifest <- deref (system_manifest self) ;;
  system_name <- getitem manifest "name" ;;
  roms <- RomListView.get_rom_choices self ;;
  ret (<["total_roms" := CLen (length roms)]>
         (<["system_manifest" := CManifest (system_manifest self)]>
            (<["system_name" := CVal system_name]>
               (<["system_path" := CStr (system_path self)]>
                  (<["system" := CStr (system_key self)]> context))))).
End Super.

End RomListContext.

(** ** More vocabulary *)

(** Every byte of the string is printable ASCII and neither a double
    quote nor a backslash: [json.dumps] writes such a string as it is. *)
Fixpoint plain (s : string) : bool :=
  match s with
  | EmptyString => true
  | String c t =>
      let n := N_of_ascii c in
      ((32 <=? n) && (n <=? 126) && negb (n =? 34) && negb (n =? 92))%N && plain t
  end.

(** The entry is a kept directory whose manifest entry has no name. *)
Definition nameless (f : filesystem) (manifest : gmap string (gmap string pyval))
    (path item : string) : Prop :=
  system_kept f path item = true
  /\ exists entry, manifest !! item = Some entry /\ entry !! "name" = None.

(** Two filesystems that answer [os.stat] alike. *)
Definition same_stat (f f' : filesystem) : Prop :=
  forall p, fs_stat f p = fs_stat f' p.

Module DemoPages.

(** A disk like [Demo.disk] whose [/roms/snes] is listed in another
    order. *)
Definition shuffled : filesystem :=
  {| fs_stat := fs_stat Demo.disk;
     fs_listdir := fun p =>
       if String.eqb p "/roms/snes"
       then Some ["saves"; "mario.smc"; ".keep"; ".hidden"; "zelda.smc"]
       else if String.eqb p "/roms"
       then Some ["atari"; "readme.txt"; ".cache"; "snes"]
       else fs_listdir Demo.disk p |}.

Definition start_shuffled : world :=
  {| fs := shuffled; conf := Demo.config; flash := []; calls := [] |}.

(** A manifest whose entry for [atari] forgot the name. *)
Definition nameless_config : settings :=
  {| RECALBOX_ROMS_PATH := "/roms";
     RECALBOX_MANIFEST := <["atari" := {[ "extensions" := PList ["a26"] ]}]> Demo.manifest;
     RECALBOX_SYSTEM_DEFAULT := Demo.template |}.

Definition start_nameless : world :=
  {| fs := Demo.disk; conf := nameless_config; flash := []; calls := [] |}.

(** What [super] hands to [get_context_data]. *)
Definition base_context : gmap string ctxval :=
  {[ "view" := CStr "RomListView"; "system" := CStr "overridden" ]}.

End DemoPages.

(** * Properties *)

(** ** The monad *)

Lemma logged_nil w : logged w [] = w.
Proof. destruct w; unfold logged; simpl. by rewrite app_nil_r. Qed.

Lemma logged_logged w cs1 cs2 : logged (logged w cs1) cs2 = logged w (cs1 ++ cs2).
Proof. unfold logged; simpl. by rewrite app_assoc. Qed.

Lemma bind_ok {A B} (m : M A) (k : A -> M B) w a w' :
  m w = (Ok a, w') -> bind m k w = k a w'.
Proof. intros H. unfold bind. by rewrite H. Qed.

Lemma bind_raise {A B} (m : M A) (k : A -> M B) w e w' :
  m w = (Raise e, w') -> bind m k w = (Raise e, w').
Proof. intros H. unfold bind. by rewrite H. Qed.

Lemma stat_spec path w :
  Os.stat path w = (Ok (fs_stat (fs w) path), logged w [CallStat path]).
Proof. reflexivity. Qed.

Lemma path_isfile_spec path w :
  Os.path_isfile path w
  = (Ok (is_regular (fs_stat (fs w) path)), logged w [CallStat path]).
Proof.
  unfold Os.path_isfile. rewrite (bind_ok _ _ _ _ _ (stat_spec path w)).
  unfold ret, is_regular. by destruct (fs_stat (fs w) path) as [[[] ?]|].
Qed.

Lemma path_isdir_spec path w :
  Os.path_isdir path w
  = (Ok (is_directory (fs_stat (fs w) path)), logged w [CallStat path]).
Proof.
  unfold Os.path_isdir. rewrite (bind_ok _ _ _ _ _ (stat_spec path w)).
  unfold ret, is_directory. by destruct (fs_stat (fs w) path) as [[[] ?]|].
Qed.

Lemma path_exists_spec path w :
  Os.path_exists path w
  = (Ok (bool_decide (is_Some (fs_stat (fs w) path))), logged w [CallStat path]).
Proof.
  unfold Os.path_exists. rewrite (bind_ok _ _ _ _ _ (stat_spec path w)).
  unfold ret. by destruct (fs_stat (fs w) path).
Qed.

Lemma path_getsize_spec path w :
  Os.path_getsize path w
  = (match fs_stat (fs w) path with
     | Some st => Ok (st_size st)
     | None => Raise OSError
     end, logged w [CallStat path]).
Proof.
  unfold Os.path_getsize. rewrite (bind_ok _ _ _ _ _ (stat_spec path w)).
  by destruct (fs_stat (fs w) path).
Qed.

Lemma listdir_spec path w :
  Os.listdir path w
  = (match fs_listdir (fs w) path with
     | Some names => Ok names
     | None => Raise OSError
     end, logged w [CallListdir path]).
Proof.
  unfold Os.listdir, bind, log_call; simpl.
  by destruct (fs_listdir (fs w) path).
Qed.

(** ** Sorting by key *)

Section Sorting.
Context {A : Type} (key : A -> string).

Local Abbreviation le := (by_key key).

Lemma ltb_leb (s t : string) : String.ltb s t = true -> String.leb s t = true.
Proof.
  unfold String.ltb, String.leb. by destruct (String.compare s t).
Qed.

Lemma not_ltb_leb (s t : string) : String.ltb s t = false -> String.leb t s = true.
Proof.
  unfold String.ltb, String.leb. rewrite (String.compare_antisym s t).
  by destruct (String.compare t s).
Qed.

Lemma insert_by_key_perm x l : insert_by_key key x l ≡ₚ x :: l.
Proof.
  induction l as [|y l IH]; simpl; [done|].
  destruct (String.ltb (key x) (key y)); [done|].
  rewrite IH. apply Permutation_swap.
Qed.

Lemma sort_from_perm sorted l : sort_from key sorted l ≡ₚ sorted ++ l.
Proof.
  revert sorted. induction l as [|x l IH]; intros sorted; simpl.
  - by rewrite app_nil_r.
  - rewrite IH, insert_by_key_perm. simpl. apply Permutation_middle.
Qed.

Lemma insert_by_key_hd x y l :
  le y x -> HdRel le y l -> HdRel le y (insert_by_key key x l).
Proof.
  intros Hyx Hl. destruct l as [|z l]; simpl; [by constructor|].
  destruct (String.ltb (key x) (key z)); constructor; [done|].
  by inversion Hl.
Qed.

Lemma insert_by_key_sorted x l :
  Sorted le l -> Sorted le (insert_by_key key x l).
Proof.
  induction 1 as [|y l Hs IH Hhd]; simpl; [by repeat constructor|].
  destruct (String.ltb (key x) (key y)) eqn:Hlt.
  - constructor; [by constructor|]. constructor. by apply ltb_leb.
  - constructor; [done|]. apply insert_by_key_hd; [|done].
    by apply not_ltb_leb.
Qed.

Lemma sort_from_sorted sorted l :
  Sorted le sorted -> Sorted le (sort_from key sorted l).
Proof.
  revert sorted. induction l as [|x l IH]; intros sorted Hs; simpl; [done|].
  apply IH. by apply insert_by_key_sorted.
Qed.

Lemma sorted_by_key_perm l : sorted_by_key key l ≡ₚ l.
Proof. unfold sorted_by_key. by rewrite sort_from_perm. Qed.

Lemma sorted_by_key_sorted l : Sorted le (sorted_by_key key l).
Proof. apply sort_from_sorted. constructor. Qed.

Lemma ascii_compare_lt_trans a b c :
  Ascii.compare a b = Lt -> Ascii.compare b c = Lt -> Ascii.compare a c = Lt.
Proof. unfold Ascii.compare. rewrite !N.compare_lt_iff. apply N.lt_trans. Qed.

Lemma string_leb_trans (s t u : string) :
  String.leb s t = true -> String.leb t u = true -> String.leb s u = true.
Proof.
  unfold String.leb. revert t u.
  induction s as [|a s IH]; intros [|b t] [|c u]; simpl; try done.
  destruct (Ascii.compare a b) eqn:Hab; try done;
    destruct (Ascii.compare b c) eqn:Hbc; try done.
  - apply Ascii.compare_eq_iff in Hab as ->.
    apply Ascii.compare_eq_iff in Hbc as ->.
    replace (Ascii.compare c c) with Eq by (symmetry; apply N.compare_refl).
    apply IH.
  - apply Ascii.compare_eq_iff in Hab as ->. by rewrite Hbc.
  - apply Ascii.compare_eq_iff in Hbc as <-. by rewrite Hab.
  - by rewrite (ascii_compare_lt_trans a b c).
Qed.

#[local] Instance by_key_trans : Transitive le.
Proof. intros x y z. apply string_leb_trans. Qed.

(** Every element of the sorted list is below all the later ones. *)
Lemma sorted_by_key_ascending l : StronglySorted le (sorted_by_key key l).
Proof. apply Sorted_StronglySorted; [apply _|apply sorted_by_key_sorted]. Qed.
End Sorting.

(** ** C1: the ROM listing *)

(** The turn made one [os.stat] call and appended nothing. *)
Ltac skipped_after_stat path item :=
  exists [CallStat (Posixpath.join path item)];
  rewrite app_nil_r; split; [reflexivity | by repeat constructor].

Lemma rom_list_step_spec path item acc w :
  exists cs,
    RomListView.rom_list_step path item acc w
    = (Ok (acc ++ rom_entry (fs w) path item), logged w cs)
    /\ Forall is_stat_call cs.
Proof.
  unfold RomListView.rom_list_step.
  rewrite (bind_ok _ _ _ _ _ (path_isfile_spec _ w)).
  unfold rom_entry, rom_kept.
  destruct (fs_stat (fs w) (Posixpath.join path item)) as [[kind size]|] eqn:Hst;
    simpl; [destruct kind; simpl|]; try skipped_after_stat path item.
  destruct (Py.startswith item "."); simpl; [skipped_after_stat path item|].
  exists [CallStat (Posixpath.join path item); CallStat (Posixpath.join path item)].
  split; [|by repeat constructor].
  pose proof (path_getsize_spec (Posixpath.join path item)
                (logged w [CallStat (Posixpath.join path item)])) as Hsize.
  simpl in Hsize. rewrite Hst in Hsize.
  erewrite bind_ok by exact Hsize.
  unfold ret. by rewrite logged_logged.
Qed.

Lemma rom_list_loop_spec path items acc w :
  exists cs,
    for_each items (RomListView.rom_list_step path) acc w
    = (Ok (acc ++ flat_map (rom_entry (fs w) path) items), logged w cs)
    /\ Forall is_stat_call cs.
Proof.
  revert acc w. induction items as [|item items IH]; intros acc w; simpl.
  - exists []. by rewrite app_nil_r, logged_nil.
  - destruct (rom_list_step_spec path item acc w) as (cs1 & Hstep & Hcs1).
    destruct (IH (acc ++ rom_entry (fs w) path item) (logged w cs1))
      as (cs2 & Hloop & Hcs2).
    exists (cs1 ++ cs2). split; [|by apply Forall_app].
    erewrite bind_ok by exact Hstep.
    rewrite Hloop. simpl. by rewrite logged_logged, app_assoc.
Qed.

Lemma rom_entry_names f path items :
  (flat_map (rom_entry f path) items).*1 = List.filter (rom_kept f path) items.
Proof.
  induction items as [|item items IH]; simpl; [done|].
  rewrite fmap_app, IH. unfold rom_entry at 1.
  destruct (rom_kept f path item) eqn:Hkept; [|done].
  unfold rom_kept in Hkept.
  by destruct (fs_stat f (Posixpath.join path item)).
Qed.

Lemma rom_entry_size f path items name size :
  (name, size) ∈ flat_map (rom_entry f path) items ->
  fs_stat f (Posixpath.join path name)
  = Some {| st_kind := Regular; st_size := size |}.
Proof.
  rewrite list_elem_of_In, in_flat_map. intros (item & _ & Hin).
  unfold rom_entry, rom_kept, is_regular in Hin.
  destruct (fs_stat f (Posixpath.join path item)) as [[[] n]|] eqn:Hst;
    simpl in Hin; try done.
  destruct (Py.startswith item "."); simpl in Hin; [done|].
  destruct Hin as [[= <- <-]|[]]. done.
Qed.

Lemma get_rom_choices_spec self w :
  exists cs,
    RomListView.get_rom_choices self w
    = (rom_choices_of (fs w) (system_path self), logged w cs)
    /\ Forall (fun c => ~ is_remove_call c) cs.
Proof.
  unfold RomListView.get_rom_choices, rom_choices_of.
  pose proof (listdir_spec (system_path self) w) as Hld.
  destruct (fs_listdir (fs w) (system_path self)) as [items|].
  - destruct (rom_list_loop_spec (system_path self) items []
                (logged w [CallListdir (system_path self)])) as (cs & Hloop & Hcs).
    simpl in Hloop.
    exists (CallListdir (system_path self) :: cs). split.
    + erewrite bind_ok by exact Hld. erewrite bind_ok by exact Hloop.
      unfold ret. by rewrite logged_logged.
    + constructor; [cbn; tauto|].
      eapply Forall_impl; [exact Hcs|]. intros []; cbn; tauto.
  - exists [CallListdir (system_path self)]. split.
    + by erewrite bind_raise by exact Hld.
    + constructor; [cbn; tauto|constructor].
Qed.

(** C1. When the system directory can be listed, [get_rom_choices] returns
    a list that is sorted ascending by filename, whose filenames are
    exactly the listed entries that are regular files and do not start
    with ["."], each paired with the size [os.stat] gives for it; only
    the system calls were added to the world. *)
Theorem get_rom_choices_lists_roms (self : rom_view) (w : world) (items : list string) :
  fs_listdir (fs w) (system_path self) = Some items ->
  exists roms cs,
    RomListView.get_rom_choices self w = (Ok roms, logged w cs)
    /\ StronglySorted key_le roms
    /\ roms.*1 ≡ₚ List.filter (rom_kept (fs w) (system_path self)) items
    /\ forall name size,
         (name, size) ∈ roms ->
         fs_stat (fs w) (Posixpath.join (system_path self) name)
         = Some {| st_kind := Regular; st_size := size |}.
Proof.
  intros Hls.
  destruct (get_rom_choices_spec self w) as (cs & Hget & _).
  unfold rom_choices_of in Hget. rewrite Hls in Hget.
  eexists _, cs. split; [exact Hget|]. split; [|split].
  - apply sorted_by_key_ascending.
  - rewrite sorted_by_key_perm. by rewrite rom_entry_names.
  - intros name size Hin. apply (rom_entry_size _ _ items).
    by rewrite <- (sorted_by_key_perm fst).
Qed.

Lemma get_rom_choices_lists_roms_witness :
  exists roms cs,
    RomListView.get_rom_choices Demo.snes Demo.start = (Ok roms, logged Demo.start cs)
    /\ StronglySorted key_le roms
    /\ roms.*1 ≡ₚ List.filter (rom_kept Demo.disk "/roms/snes")
                    ["zelda.smc"; ".hidden"; "mario.smc"; ".keep"; "saves"]
    /\ forall name size,
         (name, size) ∈ roms ->
         fs_stat Demo.disk (Posixpath.join "/roms/snes" name)
         = Some {| st_kind := Regular; st_size := size |}.
Proof.
  apply (get_rom_choices_lists_roms Demo.snes Demo.start). reflexivity.
Defined.

(** ** C2: the systems listing *)

Lemma system_dirs_step_spec path item acc w :
  named_manifest (RECALBOX_MANIFEST (conf w)) ->
  SystemsListView.system_dirs_step path item acc w
  = (Ok (acc ++ system_entry (fs w) (RECALBOX_MANIFEST (conf w)) path item),
     logged w [CallStat (Posixpath.join path item)]).
Proof.
  intros Hnamed. unfold SystemsListView.system_dirs_step.
  rewrite (bind_ok _ _ _ _ _ (path_isdir_spec _ w)).
  unfold system_entry, system_kept.
  destruct (is_directory _ && negb _); [|by rewrite app_nil_r].
  unfold bind, get_settings, display_name; simpl.
  destruct (RECALBOX_MANIFEST (conf w) !! item) as [entry|] eqn:Hentry; [|done].
  destruct (Hnamed _ _ Hentry) as [name Hname].
  unfold getitem. by rewrite Hname.
Qed.

Lemma system_dirs_loop_spec path items acc w :
  named_manifest (RECALBOX_MANIFEST (conf w)) ->
  exists cs,
    for_each items (SystemsListView.system_dirs_step path) acc w
    = (Ok (acc ++ flat_map (system_entry (fs w) (RECALBOX_MANIFEST (conf w)) path) items),
       logged w cs)
    /\ Forall is_stat_call cs.
Proof.
  intros Hnamed. revert acc w Hnamed.
  induction items as [|item items IH]; intros acc w Hnamed; simpl.
  - exists []. by rewrite app_nil_r, logged_nil.
  - pose proof (system_dirs_step_spec path item acc w Hnamed) as Hstep.
    destruct (IH (acc ++ system_entry (fs w) (RECALBOX_MANIFEST (conf w)) path item)
                 (logged w [CallStat (Posixpath.join path item)]) Hnamed)
      as (cs & Hloop & Hcs).
    exists (CallStat (Posixpath.join path item) :: cs).
    split; [|by constructor].
    erewrite bind_ok by exact Hstep.
    rewrite Hloop. simpl. by rewrite logged_logged, app_assoc.
Qed.

Lemma system_entry_keys f manifest path items :
  (flat_map (system_entry f manifest path) items).*1
  = List.filter (system_kept f path) items.
Proof.
  induction items as [|item items IH]; simpl; [done|].
  rewrite fmap_app, IH. unfold system_entry at 1.
  by destruct (system_kept f path item).
Qed.

Lemma system_entry_name f manifest path items key name :
  (key, name) ∈ flat_map (system_entry f manifest path) items ->
  name = display_name manifest key.
Proof.
  rewrite list_elem_of_In, in_flat_map. intros (item & _ & Hin).
  unfold system_entry in Hin.
  destruct (system_kept f path item); [|done].
  by destruct Hin as [[= <- <-]|[]].
Qed.

(** C2. When the root directory can be listed and every manifest entry
    configures a name, [get_system_list] returns a list that is sorted
    ascending by key, whose keys are exactly the listed entries that are
    directories and do not start with ["."], each paired with the name
    the manifest configures for it, or with the key itself when the
    manifest does not have the key. *)
Theorem get_system_list_lists_systems (w : world) (items : list string) :
  fs_listdir (fs w) (RECALBOX_ROMS_PATH (conf w)) = Some items ->
  named_manifest (RECALBOX_MANIFEST (conf w)) ->
  exists systems cs,
    SystemsListView.get_system_list w = (Ok systems, logged w cs)
    /\ StronglySorted key_le systems
    /\ systems.*1 ≡ₚ List.filter (system_kept (fs w) (RECALBOX_ROMS_PATH (conf w))) items
    /\ forall key name,
         (key, name) ∈ systems ->
         match RECALBOX_MANIFEST (conf w) !! key with
         | Some entry => entry !! "name" = Some name
         | None => name = PStr key
         end.
Proof.
  intros Hls Hnamed. unfold SystemsListView.get_system_list.
  set (path := RECALBOX_ROMS_PATH (conf w)) in *.
  pose proof (listdir_spec path w) as Hld. rewrite Hls in Hld.
  destruct (system_dirs_loop_spec path items [] (logged w [CallListdir path]) Hnamed)
    as (cs & Hloop & _).
  simpl in Hloop.
  exists (sorted_by_key fst
            (flat_map (system_entry (fs w) (RECALBOX_MANIFEST (conf w)) path) items)),
         (CallListdir path :: cs).
  split; [|split; [|split]].
  - unfold bind at 1, get_settings. fold path.
    erewrite bind_ok by exact Hld. erewrite bind_ok by exact Hloop.
    unfold ret. by rewrite logged_logged.
  - apply sorted_by_key_ascending.
  - rewrite sorted_by_key_perm. by rewrite system_entry_keys.
  - intros key name Hin.
    rewrite (sorted_by_key_perm fst) in Hin.
    apply system_entry_name in Hin. subst name. unfold display_name.
    destruct (RECALBOX_MANIFEST (conf w) !! key) as [entry|] eqn:Hentry; [|done].
    by destruct (Hnamed _ _ Hentry) as [name ->].
Qed.

Lemma get_system_list_lists_systems_witness :
  exists systems cs,
    SystemsListView.get_system_list Demo.start = (Ok systems, logged Demo.start cs)
    /\ StronglySorted key_le systems
    /\ systems.*1 ≡ₚ List.filter (system_kept Demo.disk "/roms")
                       ["snes"; ".cache"; "readme.txt"; "atari"]
    /\ forall key name,
         (key, name) ∈ systems ->
         match Demo.manifest !! key with
         | Some entry => entry !! "name" = Some name
         | None => name = PStr key
         end.
Proof.
  apply (get_system_list_lists_systems Demo.start); [reflexivity|].
  unfold named_manifest.
  apply (bool_decide_unpack (map_Forall _ Demo.manifest)). vm_compute. reflexivity.
Defined.

(** ** C3: the gate of the rom-list view *)

Lemma init_system_spec kwargs key w :
  kwargs !! "system" = Some key ->
  let path := Posixpath.join (RECALBOX_ROMS_PATH (conf w)) key in
  RomListView.init_system kwargs w
  = match fs_stat (fs w) path with
    | None => (Raise Http404, logged w [CallStat path])
    | Some st =>
        if is_directory (Some st) && negb (Py.startswith key ".") then
          let w' := logged w [CallStat path; CallStat path] in
          (Ok {| system_key := key; system_path := path;
                 system_manifest :=
                   match RECALBOX_MANIFEST (conf w) !! key with
                   | Some _ => ManifestEntry key
                   | None => SystemDefault
                   end |},
           {| fs := fs w';
              conf := {| RECALBOX_ROMS_PATH := RECALBOX_ROMS_PATH (conf w);
                         RECALBOX_MANIFEST := RECALBOX_MANIFEST (conf w);
                         RECALBOX_SYSTEM_DEFAULT :=
                           <["name" := PStr key]>
                             (<["key" := PStr key]> (RECALBOX_SYSTEM_DEFAULT (conf w))) |};
              flash := flash w';
              calls := calls w' |})
        else (Raise Http404, logged w [CallStat path; CallStat path])
    end.
Proof.
  intros Hkey path. unfold RomListView.init_system. rewrite Hkey.
  unfold bind at 1, get_settings. fold path.
  rewrite (bind_ok _ _ _ _ _ (path_exists_spec path w)).
  destruct (fs_stat (fs w) path) as [[kind size]|] eqn:Hst; [|reflexivity].
  pose proof (path_isdir_spec path (logged w [CallStat path])) as Hdir.
  rewrite logged_logged in Hdir. cbn [fs logged] in Hdir. rewrite Hst in Hdir.
  cbn [bool_decide decide_rel negb]. unfold bind at 1. unfold bind at 1.
  replace (bool_decide (is_Some (Some {| st_kind := kind; st_size := size |})))
    with true by done.
  cbn [negb]. rewrite Hdir.
  destruct kind; cbn [is_directory negb andb]; try reflexivity.
  destruct (Py.startswith key "."); reflexivity.
Qed.

Lemma init_system_404 kwargs key w :
  kwargs !! "system" = Some key ->
  let path := Posixpath.join (RECALBOX_ROMS_PATH (conf w)) key in
  fs_stat (fs w) path = None
  \/ is_directory (fs_stat (fs w) path) = false
  \/ Py.startswith key "." = true ->
  exists cs,
    RomListView.init_system kwargs w = (Raise Http404, logged w cs)
    /\ Forall (fun c => c = CallStat path) cs.
Proof.
  intros Hkey path Hbad. rewrite (init_system_spec _ _ _ Hkey). fold path.
  destruct (fs_stat (fs w) path) as [st|] eqn:Hst.
  - exists [CallStat path; CallStat path]. split; [|by repeat constructor].
    destruct Hbad as [?|[->| ->]]; [done|done|].
    by rewrite andb_false_r.
  - exists [CallStat path]. split; [done|by repeat constructor].
Qed.

(** C3. A GET or a POST for a system whose path does not exist, is not a
    directory, or whose key starts with ["."] raises [Http404], whatever
    [MultiFormView] would have done next; up to then the only system
    calls made are [os.stat] on the system's path, so nothing was
    listed, and nothing else of the world has changed. *)
Theorem rom_list_view_gate {Response : Type}
    (super_get super_post : rom_view -> M Response)
    (kwargs : gmap string string) (key : string) (w : world) :
  kwargs !! "system" = Some key ->
  let path := Posixpath.join (RECALBOX_ROMS_PATH (conf w)) key in
  fs_stat (fs w) path = None
  \/ is_directory (fs_stat (fs w) path) = false
  \/ Py.startswith key "." = true ->
  exists cs,
    RomListView.get super_get kwargs w = (Raise Http404, logged w cs)
    /\ RomListView.post super_post kwargs w = (Raise Http404, logged w cs)
    /\ Forall (fun c => c = CallStat path) cs.
Proof.
  intros Hkey path Hbad.
  destruct (init_system_404 kwargs key w Hkey Hbad) as (cs & Hinit & Hcs).
  exists cs. unfold RomListView.get, RomListView.post.
  by rewrite !(bind_raise _ _ _ _ _ Hinit).
Qed.

Lemma rom_list_view_gate_witness :
  exists cs,
    RomListView.get (fun _ => ret tt) {[ "system" := ".cache" ]} Demo.start
    = (Raise Http404, logged Demo.start cs)
    /\ RomListView.post (fun _ => ret tt) {[ "system" := ".cache" ]} Demo.start
       = (Raise Http404, logged Demo.start cs)
    /\ Forall (fun c => c = CallStat "/roms/.cache") cs.
Proof.
  apply (rom_list_view_gate (fun _ => ret tt) (fun _ => ret tt)
           {[ "system" := ".cache" ]} ".cache" Demo.start).
  - reflexivity.
  - right. right. reflexivity.
Defined.

(** ** C4: the default entry of the settings *)

Lemma init_system_rewrites_default kwargs self w w' :
  RomListView.init_system kwargs w = (Ok self, w') ->
  RECALBOX_MANIFEST (conf w') = RECALBOX_MANIFEST (conf w)
  /\ RECALBOX_SYSTEM_DEFAULT (conf w')
     = <["name" := PStr (system_key self)]>
         (<["key" := PStr (system_key self)]> (RECALBOX_SYSTEM_DEFAULT (conf w))).
Proof.
  destruct (kwargs !! "system") as [key|] eqn:Hkey.
  - rewrite (init_system_spec _ _ _ Hkey).
    destruct (fs_stat _ _); [|done].
    destruct (_ && _); [|done].
    by intros [= <- <-].
  - unfold RomListView.init_system. by rewrite Hkey.
Qed.

(** C4. A GET of the rom list of [atari], a directory the manifest does
    not know, leaves the manifest as it was but writes the key into the
    default entry of the settings: its name was empty before the request
    and is ["atari"] after it. *)
Theorem rom_list_request_rewrites_default :
  let request := RomListView.get (fun _ => ret tt) {[ "system" := "atari" ]} in
  let after := conf (request Demo.start).2 in
  (request Demo.start).1 = Ok tt
  /\ Demo.manifest !! "atari" = None
  /\ RECALBOX_MANIFEST after = Demo.manifest
  /\ Demo.template !! "name" = Some (PStr "")
  /\ RECALBOX_SYSTEM_DEFAULT after !! "name" = Some (PStr "atari")
  /\ RECALBOX_SYSTEM_DEFAULT after <> Demo.template.
Proof.
  assert (Hname : RECALBOX_SYSTEM_DEFAULT
                    (conf (RomListView.get (fun _ => ret tt)
                             {[ "system" := "atari" ]} Demo.start).2) !! "name"
                  = Some (PStr "atari")) by (vm_compute; reflexivity).
  cbv zeta. split; [vm_compute; reflexivity|].
  split; [vm_compute; reflexivity|].
  split; [reflexivity|].
  split; [vm_compute; reflexivity|].
  split; [exact Hname|].
  intros Heq. rewrite Heq in Hname. vm_compute in Hname. discriminate.
Qed.

(** ** C5: a missing root directory *)

Lemma get_system_list_oserror w :
  fs_listdir (fs w) (RECALBOX_ROMS_PATH (conf w)) = None ->
  SystemsListView.get_system_list w
  = (Raise OSError, logged w [CallListdir (RECALBOX_ROMS_PATH (conf w))]).
Proof.
  intros Hls. unfold SystemsListView.get_system_list.
  unfold bind at 1, get_settings.
  pose proof (listdir_spec (RECALBOX_ROMS_PATH (conf w)) w) as Hld.
  rewrite Hls in Hld. by erewrite bind_raise by exact Hld.
Qed.

(** C5. With no ROMs directory on the disk, [get_system_list] raises the
    [OSError] of [os.listdir]; it does not raise [Http404]. *)
Theorem get_system_list_missing_root :
  fs_stat (fs Demo.start_no_roms) "/roms" = None
  /\ SystemsListView.get_system_list Demo.start_no_roms
     = (Raise OSError, logged Demo.start_no_roms [CallListdir "/roms"])
  /\ (SystemsListView.get_system_list Demo.start_no_roms).1 <> Raise Http404.
Proof.
  split; [reflexivity|]. split; [reflexivity|]. discriminate.
Qed.

(** ** C6, C7, C9: the JSON answers of the upload view *)

Lemma append_cons c (s t : string) : String c s +:+ t = String c (s +:+ t).
Proof. reflexivity. Qed.

Lemma append_assoc (s t u : string) : (s +:+ t) +:+ u = s +:+ (t +:+ u).
Proof.
  induction s as [|c s IH]; [done|]. by rewrite !append_cons, IH.
Qed.

Lemma json_response_no_cache backend klass r :
  RomUploadJsonView.json_response backend klass = Ok r -> no_cache_json r.
Proof.
  unfold RomUploadJsonView.json_response.
  destruct (match backend with
            | BackendString s => Ok s
            | BackendDict d => Json.dumps d
            end) as [body|e]; [|done].
  intros [= <-]. unfold no_cache_json; simpl.
  split; [by simplify_map_eq|]. split; [by simplify_map_eq|].
  eexists. split; [by simplify_map_eq|]. reflexivity.
Qed.

(** The response follows what [json.dumps] does with the dict. *)
Lemma json_response_dict d klass :
  match Json.dumps d with
  | Ok body =>
      exists r,
        RomUploadJsonView.json_response (BackendDict d) klass = Ok r
        /\ status_code r = klass_status klass
        /\ content r = body
  | Raise e => RomUploadJsonView.json_response (BackendDict d) klass = Raise e
  end.
Proof.
  unfold RomUploadJsonView.json_response.
  destruct (Json.dumps d) as [body|e]; [|done]. by eexists.
Qed.

Lemma decode_plain (s : string) :
  plain s = true ->
  Json.decode_utf8 (Json.bytes_of s) = Some (Json.bytes_of s)
  /\ Json.escape_code_points (Json.bytes_of s) = s.
Proof.
  induction s as [|c s IH]; [done|].
  cbn [plain]. intros Hplain.
  apply andb_true_iff in Hplain as [Hc Hs].
  destruct (IH Hs) as [Hdecode Hescape].
  repeat (apply andb_true_iff in Hc as [Hc ?]).
  apply N.leb_le in Hc.
  repeat match goal with
         | H : (_ <=? _)%N = true |- _ => apply N.leb_le in H
         | H : negb (_ =? _)%N = true |- _ =>
             apply negb_true_iff, N.eqb_neq in H
         end.
  unfold Json.bytes_of in *. cbn [String.list_ascii_of_string fmap list_fmap].
  split.
  - cbn [Json.decode_utf8].
    replace (N_of_ascii c <? 128)%N with true by (symmetry; apply N.ltb_lt; lia).
    by rewrite Hdecode.
  - cbn [Json.escape_code_points]. rewrite Hescape.
    unfold Json.escape_code_point.
    repeat match goal with
           | |- context [(N_of_ascii c =? ?k)%N] =>
               replace (N_of_ascii c =? k)%N with false
                 by (symmetry; apply N.eqb_neq; lia)
           end.
    replace ((32 <=? N_of_ascii c) && (N_of_ascii c <=? 126))%N with true
      by (symmetry; apply andb_true_iff; split; apply N.leb_le; lia).
    by rewrite ascii_N_embedding.
Qed.

(** A plain text leaves [json.dumps] between quotes, as it is. *)
Lemma dumps_plain (text : string) :
  plain text = true ->
  Json.dumps [("error", text)] = Ok (json_object1 "error" text).
Proof.
  intros Hplain. destruct (decode_plain text Hplain) as [Hdecode Hescape].
  unfold Json.dumps, Json.encode_items, Json.encode_item, Json.encode_string.
  cbn [fst snd].
  replace (Json.escape "error") with (Ok "error" : outcome string)
    by (vm_compute; reflexivity).
  unfold Json.escape at 1. rewrite Hdecode, Hescape.
  unfold json_object1, Py.join. cbn [String.concat].
  by rewrite !append_assoc.
Qed.

Lemma error_msg_step_first form :
  RomUploadJsonView.error_msg_step form ""
  = if String.eqb (any_form_key form) "upload"
    then Py.join Py.newline (rom_messages form)
    else "".
Proof.
  unfold RomUploadJsonView.error_msg_step, rom_messages.
  destruct (String.eqb _ _); [|done].
  destruct (any_form_errors form !! "rom") as [[|m [|m' ms]]|]; done.
Qed.

Lemma error_msg_step_other form msg :
  any_form_key form <> "upload" ->
  RomUploadJsonView.error_msg_step form msg = msg.
Proof.
  intros Hkey. unfold RomUploadJsonView.error_msg_step.
  apply String.eqb_neq in Hkey. by rewrite Hkey.
Qed.

Lemma error_msg_others forms msg :
  Forall (fun form => any_form_key form <> "upload") forms ->
  foldl (fun msg form => RomUploadJsonView.error_msg_step form msg) msg forms = msg.
Proof.
  induction 1 as [|form forms Hform _ IH]; simpl; [done|].
  by rewrite error_msg_step_other.
Qed.

Lemma error_msg_silent forms :
  Forall (fun form => any_form_key form = "upload" -> rom_messages form = []) forms ->
  foldl (fun msg form => RomUploadJsonView.error_msg_step form msg) "" forms = "".
Proof.
  induction 1 as [|form forms Hform _ IH]; simpl; [done|].
  rewrite error_msg_step_first.
  destruct (String.eqb _ _) eqn:Hkey; [|done].
  apply String.eqb_eq in Hkey. by rewrite (Hform Hkey).
Qed.

(** [form_invalid] answers with the dict of the one member ["error"]. *)
Lemma form_invalid_content args :
  let msg := foldl (fun msg form => RomUploadJsonView.error_msg_step form msg) "" args in
  RomUploadJsonView.form_invalid args
  = RomUploadJsonView.json_response
      (BackendDict [("error", if Py.truthy msg then msg else "Unknow error occured")])
      HttpResponseBadRequest.
Proof.
  cbv zeta. unfold RomUploadJsonView.form_invalid.
  by destruct (Py.truthy _).
Qed.

Lemma form_invalid_unknown args :
  foldl (fun msg form => RomUploadJsonView.error_msg_step form msg) "" args = "" ->
  exists r,
    RomUploadJsonView.form_invalid args = Ok r
    /\ status_code r = 400%N
    /\ content r = json_object1 "error" "Unknow error occured".
Proof.
  intros Hmsg. rewrite form_invalid_content, Hmsg. by eexists.
Qed.

(** C6, as the code has it. When the upload form is valid and saved, the
    JSON view answers 200 with the body [{"status": "success"}]. When the
    forms are invalid, the upload form among them, the text reported is
    the messages of the ["rom"] field of the upload form joined by line
    feeds (the message itself when there is one) if that is not empty,
    and the fixed text ["Unknow error occured"] if it is; the other
    fields and the other forms play no part. The view answers 400 with
    the body [json.dumps] makes of [{"error": text}], and raises what
    [json.dumps] raises when the text is not UTF-8. For a text of plain
    printable ASCII the body is [{"error": "text"}] byte for byte. *)
Theorem json_upload_answers :
  (forall (form : form string) (w w1 : world) (uploaded_file : string),
      save form w = (Ok uploaded_file, w1) ->
      exists r,
        RomUploadJsonView.upload_form_valid form w = (Ok r, w1)
        /\ status_code r = 200%N
        /\ content r = json_object1 "status" "success")
  /\ (forall (before after : list any_form) (upload : any_form),
        any_form_key upload = "upload" ->
        Forall (fun form => any_form_key form <> "upload") (before ++ after) ->
        let answer := RomUploadJsonView.form_invalid (before ++ upload :: after) in
        let joined := Py.join Py.newline (rom_messages upload) in
        let text := if Py.truthy joined then joined else "Unknow error occured" in
        match Json.dumps [("error", text)] with
        | Ok body =>
            exists r, answer = Ok r /\ status_code r = 400%N /\ content r = body
        | Raise e => answer = Raise e
        end
        /\ (plain text = true ->
            exists r,
              answer = Ok r
              /\ status_code r = 400%N
              /\ content r = json_object1 "error" text)).
Proof.
  split.
  - intros form w w1 uploaded_file Hsave.
    unfold RomUploadJsonView.upload_form_valid.
    erewrite bind_ok by exact Hsave.
    eexists. split; [reflexivity|]. split; reflexivity.
  - intros before after upload Hkey Hothers. cbv zeta.
    apply Forall_app in Hothers as [Hbefore Hafter].
    rewrite form_invalid_content, foldl_app. simpl.
    rewrite (error_msg_others before) by done.
    rewrite error_msg_step_first.
    apply String.eqb_eq in Hkey as ->.
    rewrite (error_msg_others after) by done.
    set (text := if Py.truthy _ then _ else _).
    pose proof (json_response_dict [("error", text)] HttpResponseBadRequest) as Hdict.
    split; [exact Hdict|].
    intros Hplain. by rewrite (dumps_plain text Hplain) in Hdict.
Qed.

Lemma json_upload_answers_witness :
  (exists r,
      RomUploadJsonView.upload_form_valid Demo.stored_upload Demo.start
      = (Ok r, Demo.start)
      /\ status_code r = 200%N
      /\ content r = json_object1 "status" "success")
  /\ (let answer := RomUploadJsonView.form_invalid
                      ([ADeleteForm Demo.refused_delete]
                         ++ AnUploadForm Demo.refused_upload :: []) in
      let joined := Py.join Py.newline (rom_messages (AnUploadForm Demo.refused_upload)) in
      let text := if Py.truthy joined then joined else "Unknow error occured" in
      match Json.dumps [("error", text)] with
      | Ok body =>
          exists r, answer = Ok r /\ status_code r = 400%N /\ content r = body
      | Raise e => answer = Raise e
      end
      /\ (plain text = true ->
          exists r,
            answer = Ok r
            /\ status_code r = 400%N
            /\ content r = json_object1 "error" text)).
Proof.
  split.
  - apply (proj1 json_upload_answers Demo.stored_upload Demo.start Demo.start
             "/roms/snes/yoshi.smc").
    reflexivity.
  - apply (proj2 json_upload_answers [ADeleteForm Demo.refused_delete] []
             (AnUploadForm Demo.refused_upload)).
    + reflexivity.
    + repeat constructor. simpl. discriminate.
Defined.

(** C6, as the spec has it, fails: an upload form refused for another
    field only has no message on ["rom"], and the answer carries the
    fixed text, not the joined messages of that field. *)
Lemma json_error_without_rom_message :
  let upload := AnUploadForm Demo.misfilled_upload in
  rom_messages upload = []
  /\ exists r,
       RomUploadJsonView.form_invalid [upload] = Ok r
       /\ content r = json_object1 "error" "Unknow error occured"
       /\ Json.dumps [("error", Py.join Py.newline (rom_messages upload))]
          <> Ok (content r).
Proof.
  cbv zeta. split; [vm_compute; reflexivity|].
  eexists. split; [vm_compute; reflexivity|].
  split; [vm_compute; reflexivity|].
  vm_compute. discriminate.
Qed.

(** C7. Every response [json_response] builds, and so every response of
    [form_invalid] and of [upload_form_valid] of the JSON view, has the
    headers [Pragma: no-cache] and [Cache-Control: no-cache, no-store,
    must-revalidate, max-age=0] and a [Content-Type] whose media type is
    [application/json]. *)
Theorem json_answers_not_cached :
  (forall backend klass r,
      RomUploadJsonView.json_response backend klass = Ok r -> no_cache_json r)
  /\ (forall args r,
        RomUploadJsonView.form_invalid args = Ok r -> no_cache_json r)
  /\ (forall (form : form string) (w w' : world) (r : response),
        RomUploadJsonView.upload_form_valid form w = (Ok r, w') ->
        no_cache_json r).
Proof.
  split; [apply json_response_no_cache|].
  split.
  - intros args r. rewrite form_invalid_content. apply json_response_no_cache.
  - intros form w w' r. unfold RomUploadJsonView.upload_form_valid, bind, lift.
    destruct (save form w) as [[uploaded_file|e] w1]; [|done].
    intros Heq. apply (f_equal fst) in Heq. cbn [fst] in Heq.
    exact (json_response_no_cache _ _ _ Heq).
Qed.

Lemma json_answers_not_cached_witness :
  (exists r,
      RomUploadJsonView.json_response (BackendString "[]") HttpResponse = Ok r
      /\ no_cache_json r)
  /\ (exists r,
        RomUploadJsonView.form_invalid [AnUploadForm Demo.refused_upload] = Ok r
        /\ no_cache_json r)
  /\ (exists r,
        RomUploadJsonView.upload_form_valid Demo.stored_upload Demo.start
        = (Ok r, Demo.start)
        /\ no_cache_json r).
Proof.
  split; [|split].
  - eexists. split; [reflexivity|].
    apply (proj1 json_answers_not_cached (BackendString "[]") HttpResponse).
    reflexivity.
  - eexists. split; [vm_compute; reflexivity|].
    apply (proj1 (proj2 json_answers_not_cached) [AnUploadForm Demo.refused_upload]).
    vm_compute. reflexivity.
  - eexists. split; [vm_compute; reflexivity|].
    apply (proj2 (proj2 json_answers_not_cached) Demo.stored_upload Demo.start Demo.start).
    vm_compute. reflexivity.
Defined.

(** C9. When no form among the invalid ones is an upload form with a
    message on its ["rom"] field, [form_invalid] answers 400 with the
    body [{"error": "Unknow error occured"}]. *)
Theorem json_unknown_error (args : list any_form) :
  Forall (fun form => any_form_key form = "upload" -> rom_messages form = []) args ->
  exists r,
    RomUploadJsonView.form_invalid args = Ok r
    /\ status_code r = 400%N
    /\ content r = json_object1 "error" "Unknow error occured".
Proof.
  intros Hsilent. apply form_invalid_unknown. by apply error_msg_silent.
Qed.

Lemma json_unknown_error_witness :
  exists r,
    RomUploadJsonView.form_invalid
      [ADeleteForm Demo.refused_delete; AnUploadForm Demo.misfilled_upload] = Ok r
    /\ status_code r = 400%N
    /\ content r = json_object1 "error" "Unknow error occured".
Proof.
  apply (json_unknown_error
           [ADeleteForm Demo.refused_delete; AnUploadForm Demo.misfilled_upload]).
  repeat constructor.
Defined.

(** ** C10: the flash messages of the HTML view *)

Lemma append_empty_r (s : string) : s +:+ "" = s.
Proof.
  induction s as [|c s IH]; [done|].
  change (String c (s +:+ "") = String c s). by rewrite IH.
Qed.

Lemma format_deleted (names : string) :
  Py.format (ugettext "Deleted file(s): {}") names = "Deleted file(s): " +:+ names.
Proof. unfold ugettext. simpl. rewrite append_empty_r. reflexivity. Qed.

Lemma format_uploaded (name : string) :
  Py.format (ugettext "File has been uploaded: {}") name
  = "File has been uploaded: " +:+ name.
Proof. unfold ugettext. simpl. rewrite append_empty_r. reflexivity. Qed.

(** C10. After [save()] of the delete form returned, [delete_form_valid]
    adds one success message when at least one file was deleted, and
    none otherwise; the message is ["Deleted file(s): "] followed by the
    basenames of the deleted files joined by [", "]. After [save()] of
    the upload form returned, [upload_form_valid] adds the success
    message ["File has been uploaded: "] followed by the basename of the
    stored file. Nothing else of the world changes. *)
Theorem html_success_messages :
  (forall (form : form (option (list string))) (w w1 : world)
          (deleted_files : option (list string)),
      save form w = (Ok deleted_files, w1) ->
      exists w2,
        RomListView.delete_form_valid form w = (Ok tt, w2)
        /\ fs w2 = fs w1 /\ conf w2 = conf w1 /\ calls w2 = calls w1
        /\ flash w2
           = flash w1
             ++ match default [] deleted_files with
                | [] => []
                | files =>
                    [(SUCCESS,
                      "Deleted file(s): "
                        +:+ Py.join ", " (Posixpath.basename <$> files))]
                end)
  /\ (forall (form : form string) (w w1 : world) (uploaded_file : string),
        save form w = (Ok uploaded_file, w1) ->
        exists w2,
          RomListView.upload_form_valid form w = (Ok tt, w2)
          /\ fs w2 = fs w1 /\ conf w2 = conf w1 /\ calls w2 = calls w1
          /\ flash w2
             = flash w1
               ++ [(SUCCESS,
                    "File has been uploaded: " +:+ Posixpath.basename uploaded_file)]).
Proof.
  split.
  - intros form w w1 deleted_files Hsave.
    unfold RomListView.delete_form_valid.
    erewrite bind_ok by exact Hsave.
    destruct deleted_files as [[|file files]|]; cbn [default].
    + exists w1. by rewrite app_nil_r.
    + rewrite format_deleted. eexists. split; [reflexivity|].
      repeat split; reflexivity.
    + exists w1. by rewrite app_nil_r.
  - intros form w w1 uploaded_file Hsave.
    unfold RomListView.upload_form_valid.
    erewrite bind_ok by exact Hsave. rewrite format_uploaded.
    eexists. split; [reflexivity|]. repeat split; reflexivity.
Qed.

Lemma html_success_messages_witness :
  (let w1 := (save Demo.two_deleted Demo.start).2 in
   exists w2,
     RomListView.delete_form_valid Demo.two_deleted Demo.start = (Ok tt, w2)
     /\ fs w2 = fs w1 /\ conf w2 = conf w1 /\ calls w2 = calls w1
     /\ flash w2
        = flash w1
          ++ match default [] (Some ["/roms/snes/zelda.smc"; "/roms/snes/mario.smc"]) with
             | [] => []
             | files =>
                 [(SUCCESS,
                   "Deleted file(s): "
                     +:+ Py.join ", " (Posixpath.basename <$> files))]
             end)
  /\ (exists w2,
        RomListView.upload_form_valid Demo.stored_upload Demo.start = (Ok tt, w2)
        /\ fs w2 = fs Demo.start /\ conf w2 = conf Demo.start
        /\ calls w2 = calls Demo.start
        /\ flash w2
           = flash Demo.start
             ++ [(SUCCESS,
                  "File has been uploaded: "
                    +:+ Posixpath.basename "/roms/snes/yoshi.smc")]).
Proof.
  split.
  - apply (proj1 html_success_messages Demo.two_deleted Demo.start).
    reflexivity.
  - apply (proj2 html_success_messages Demo.stored_upload Demo.start).
    reflexivity.
Defined.

(** ** C8: a delete submission naming an unknown file *)

Lemma get_delete_form_kwargs_spec self w roms :
  (RomListView.get_rom_choices self w).1 = Ok roms ->
  exists cs,
    RomListView.get_delete_form_kwargs self w
    = (Ok {| RomListView.romchoices := roms;
             RomListView.kw_system := system_key self |}, logged w cs)
    /\ Forall (fun c => ~ is_remove_call c) cs
    /\ rom_choices_of (fs w) (system_path self) = Ok roms.
Proof.
  destruct (get_rom_choices_spec self w) as (cs & Hget & Hcs).
  rewrite Hget. simpl. intros Hroms. exists cs.
  split; [|done].
  unfold RomListView.get_delete_form_kwargs.
  rewrite Hroms in Hget. by erewrite bind_ok by exact Hget.
Qed.

Lemma is_choice_false romchoices name :
  name ∉ romchoices.*1 -> RomDeleteForm.is_choice romchoices name = false.
Proof.
  intros Hnot. unfold RomDeleteForm.is_choice.
  apply not_true_is_false. intros Hex.
  apply existsb_exists in Hex as (x & Hin & Heq).
  apply String.eqb_eq in Heq as <-. by apply list_elem_of_In in Hin.
Qed.

Lemma clean_names_unknown romchoices selected name :
  name ∈ selected -> name ∉ romchoices.*1 ->
  UnknownFile name ∈ RomDeleteForm.clean romchoices selected.
Proof.
  intros Hin Hnot. unfold RomDeleteForm.clean.
  apply list_elem_of_fmap. exists name. split; [done|].
  apply list_elem_of_filter. split; [|done]. by apply is_choice_false.
Qed.

(** C8. The rom choices handed to the delete form are the current ROM
    listing. A submission that selects a name which is not in that
    listing is answered with the page rendered again, among its errors
    the one naming the unknown file; no [os.remove] was called, the
    world differs by the logged calls only, and the listing taken after
    the submission is the listing taken before it. *)
Theorem unknown_delete_is_refused (self : rom_view) (w : world)
    (roms : list (string * N)) (selected : list string) (name : string) :
  (RomListView.get_rom_choices self w).1 = Ok roms ->
  name ∈ selected ->
  name ∉ roms.*1 ->
  exists errs cs,
    (RomListView.get_delete_form_kwargs self w).1
    = Ok {| RomListView.romchoices := roms;
            RomListView.kw_system := system_key self |}
    /\ delete_submission self selected w = (Ok (Rerendered errs), logged w cs)
    /\ UnknownFile name ∈ errs
    /\ Forall (fun c => ~ is_remove_call c) cs
    /\ (RomListView.get_rom_choices self (logged w cs)).1 = Ok roms.
Proof.
  intros Hroms Hin Hnot.
  destruct (get_delete_form_kwargs_spec self w roms Hroms) as (cs & Hkw & Hcs & Hof).
  pose proof (clean_names_unknown roms selected name Hin Hnot) as Herr.
  exists (RomDeleteForm.clean roms selected), cs.
  split; [by rewrite Hkw|]. split; [|split; [done|split; [done|]]].
  - unfold delete_submission. erewrite bind_ok by exact Hkw. simpl.
    destruct (RomDeleteForm.clean roms selected) as [|err errs]; [|done].
    by apply elem_of_nil in Herr.
  - destruct (get_rom_choices_spec self (logged w cs)) as (cs' & Hget & _).
    rewrite Hget. simpl. exact Hof.
Qed.

Lemma unknown_delete_is_refused_witness :
  exists errs cs,
    (RomListView.get_delete_form_kwargs Demo.snes Demo.start).1
    = Ok {| RomListView.romchoices := [("mario.smc", 1024%N); ("zelda.smc", 2048%N)];
            RomListView.kw_system := "snes" |}
    /\ delete_submission Demo.snes ["mario.smc"; "saves"] Demo.start
       = (Ok (Rerendered errs), logged Demo.start cs)
    /\ UnknownFile "saves" ∈ errs
    /\ Forall (fun c => ~ is_remove_call c) cs
    /\ (RomListView.get_rom_choices Demo.snes (logged Demo.start cs)).1
       = Ok [("mario.smc", 1024%N); ("zelda.smc", 2048%N)].
Proof.
  apply (unknown_delete_is_refused Demo.snes Demo.start
           [("mario.smc", 1024%N); ("zelda.smc", 2048%N)]
           ["mario.smc"; "saves"] "saves").
  - vm_compute. reflexivity.
  - apply (bool_decide_unpack ("saves" ∈ ["mario.smc"; "saves"])).
    vm_compute. reflexivity.
  - apply (bool_decide_unpack ("saves" ∉ ["mario.smc"; "zelda.smc"])).
    vm_compute. reflexivity.
Defined.

(** A valid submission does delete: the model of [save] is not idle. *)
Lemma known_delete_removes :
  let after := (delete_submission Demo.snes ["mario.smc"] Demo.start).2 in
  (delete_submission Demo.snes ["mario.smc"] Demo.start).1 = Ok Redirected
  /\ rom_choices_of (fs after) "/roms/snes" = Ok [("zelda.smc", 2048%N)]
  /\ flash after = [(SUCCESS, "Deleted file(s): mario.smc")].
Proof. vm_compute. repeat split; reflexivity. Qed.

Example basename_ex : Posixpath.basename "/roms/snes/mario.smc" = "mario.smc".
Proof. reflexivity. Qed.
Example join_ex : Posixpath.join "/roms" "snes" = "/roms/snes".
Proof. reflexivity. Qed.
Example format_ex : Py.format "Deleted file(s): {}" "a, b" = "Deleted file(s): a, b".
Proof. reflexivity. Qed.


Example dumps_ex :
  Json.dumps [("status", "success")]
  = Ok ("{" +:+ Py.dquote +:+ "status" +:+ Py.dquote +:+ ": "
            +:+ Py.dquote +:+ "success" +:+ Py.dquote +:+ "}").
Proof. reflexivity. Qed.
Example roms_ex :
  (RomListView.get_rom_choices Demo.snes Demo.start).1
  = Ok [("mario.smc", 1024%N); ("zelda.smc", 2048%N)].
Proof. vm_compute. reflexivity. Qed.
Example systems_ex :
  (SystemsListView.get_system_list Demo.start).1
  = Ok [("atari", PStr "atari"); ("snes", PStr "Super Nintendo")].
Proof. vm_compute. reflexivity. Qed.

(** * Further properties of the views *)

(** ** [init_system]: what it accepts and what it touches *)

(** X1. For a request that names a system, [init_system] accepts exactly
    the keys whose path is a directory and which do not start with ["."]:
    it then binds the key, the joined path and the manifest reference
    (the manifest's entry when the key is configured, the default entry
    otherwise), and [get] hands that view to [MultiFormView]; every other
    key raises [Http404]. *)
Theorem init_system_accepts_directories {Response : Type}
    (super_get : rom_view -> M Response)
    (kwargs : gmap string string) (key : string) (w : world) :
  kwargs !! "system" = Some key ->
  let root := RECALBOX_ROMS_PATH (conf w) in
  let self :=
    {| system_key := key;
       system_path := Posixpath.join root key;
       system_manifest :=
         match RECALBOX_MANIFEST (conf w) !! key with
         | Some _ => ManifestEntry key
         | None => SystemDefault
         end |} in
  (RomListView.init_system kwargs w).1
  = (if system_kept (fs w) root key then Ok self else Raise Http404)
  /\ (system_kept (fs w) root key = true ->
      RomListView.get super_get kwargs w
      = super_get self (RomListView.init_system kwargs w).2).
Proof.
  intros Hkey root self.
  pose proof (init_system_spec kwargs key w Hkey) as Hspec. cbv zeta in Hspec.
  fold root in Hspec. unfold system_kept.
  destruct (fs_stat (fs w) (Posixpath.join root key)) as [st|] eqn:Hst.
  - destruct (is_directory (Some st) && negb (Py.startswith key ".")) eqn:Hkept.
    + split; [by rewrite Hspec|]. intros _.
      unfold RomListView.get, bind. by rewrite Hspec.
    + split; [by rewrite Hspec|]. done.
  - simpl. split; [by rewrite Hspec|]. done.
Qed.

Lemma init_system_accepts_directories_witness :
  let self :=
    {| system_key := "snes";
       system_path := Posixpath.join "/roms" "snes";
       system_manifest :=
         match Demo.manifest !! "snes" with
         | Some _ => ManifestEntry "snes"
         | None => SystemDefault
         end |} in
  (RomListView.init_system {[ "system" := "snes" ]} Demo.start).1
  = (if system_kept Demo.disk "/roms" "snes" then Ok self else Raise Http404)
  /\ (system_kept Demo.disk "/roms" "snes" = true ->
      RomListView.get (fun v => ret (system_path v)) {[ "system" := "snes" ]} Demo.start
      = ret (system_path self)
          (RomListView.init_system {[ "system" := "snes" ]} Demo.start).2).
Proof.
  apply (init_system_accepts_directories (fun v => ret (system_path v))
           {[ "system" := "snes" ]} "snes" Demo.start).
  reflexivity.
Defined.

(** X2. Whatever the request and however it ends, [init_system] leaves
    the filesystem, the flash messages, the root path and the manifest
    as they were, makes no call but [os.stat], and changes no field of
    the default entry other than ["key"] and ["name"]. *)
Theorem init_system_touches_key_and_name (kwargs : gmap string string) (w : world) :
  let w' := (RomListView.init_system kwargs w).2 in
  fs w' = fs w
  /\ flash w' = flash w
  /\ RECALBOX_ROMS_PATH (conf w') = RECALBOX_ROMS_PATH (conf w)
  /\ RECALBOX_MANIFEST (conf w') = RECALBOX_MANIFEST (conf w)
  /\ (exists cs, calls w' = calls w ++ cs /\ Forall is_stat_call cs)
  /\ forall field,
       field <> "key" -> field <> "name" ->
       RECALBOX_SYSTEM_DEFAULT (conf w') !! field
       = RECALBOX_SYSTEM_DEFAULT (conf w) !! field.
Proof.
  cbv zeta. destruct (kwargs !! "system") as [key|] eqn:Hkey.
  - rewrite (init_system_spec kwargs key w Hkey).
    destruct (fs_stat _ _) as [st|]; [destruct (_ && _)|]; simpl.
    + do 4 (split; [done|]). split.
      * eexists. split; [done|]. by repeat constructor.
      * intros field Hk Hn. by rewrite !lookup_insert_ne.
    + do 4 (split; [done|]). split; [|done].
      eexists. split; [done|]. by repeat constructor.
    + do 4 (split; [done|]). split; [|done].
      eexists. split; [done|]. by repeat constructor.
  - unfold RomListView.init_system. rewrite Hkey. simpl.
    do 4 (split; [done|]). split; [|done].
    exists []. by rewrite app_nil_r.
Qed.

Lemma upload_form_gets_manifest_aux kwargs self w w' :
  RomListView.init_system kwargs w = (Ok self, w') ->
  deref (system_manifest self) w'
  = (Ok match RECALBOX_MANIFEST (conf w) !! system_key self with
        | Some entry => entry
        | None =>
            <["name" := PStr (system_key self)]>
              (<["key" := PStr (system_key self)]>
                 (RECALBOX_SYSTEM_DEFAULT (conf w)))
        end, w').
Proof.
  intros Hinit.
  destruct (kwargs !! "system") as [key|] eqn:Hkey.
  - rewrite (init_system_spec kwargs key w Hkey) in Hinit.
    destruct (fs_stat _ _) as [st|]; [|done].
    destruct (_ && _); [|done].
    injection Hinit as <- <-. simpl.
    unfold deref, bind, get_settings, getitem; simpl.
    by destruct (RECALBOX_MANIFEST (conf w) !! key) as [entry|] eqn:Hentry;
      simpl; [rewrite Hentry|].
  - unfold RomListView.init_system in Hinit. by rewrite Hkey in Hinit.
Qed.

(** X3. After [init_system] accepted a request, the dict behind
    [self.system_manifest] is the manifest's own entry when the key is
    configured, and otherwise the default entry with ["key"] and ["name"]
    set to the key and its other fields as configured.
    [get_upload_form_kwargs] hands that reference and the key to the
    upload form and keeps every other keyword argument. *)
Theorem upload_form_gets_manifest (kwargs : gmap string string)
    (form_kwargs : gmap string ctxval) (self : rom_view) (w w' : world) :
  RomListView.init_system kwargs w = (Ok self, w') ->
  let given := RomListContext.get_upload_form_kwargs self form_kwargs in
  given !! "system" = Some (CStr (system_key self))
  /\ given !! "system_manifest" = Some (CManifest (system_manifest self))
  /\ (forall k, k <> "system" -> k <> "system_manifest" ->
                given !! k = form_kwargs !! k)
  /\ deref (system_manifest self) w'
     = (Ok match RECALBOX_MANIFEST (conf w) !! system_key self with
           | Some entry => entry
           | None =>
               <["name" := PStr (system_key self)]>
                 (<["key" := PStr (system_key self)]>
                    (RECALBOX_SYSTEM_DEFAULT (conf w)))
           end, w').
Proof.
  intros Hinit. cbv zeta. unfold RomListContext.get_upload_form_kwargs.
  split; [by simplify_map_eq|]. split; [by simplify_map_eq|].
  split; [intros k Hs Hm; by rewrite !lookup_insert_ne|].
  by apply (upload_form_gets_manifest_aux kwargs).
Qed.

Lemma init_system_touches_key_and_name_witness :
  let w' := (RomListView.init_system {[ "system" := "atari" ]} Demo.start).2 in
  fs w' = fs Demo.start
  /\ flash w' = flash Demo.start
  /\ RECALBOX_ROMS_PATH (conf w') = RECALBOX_ROMS_PATH (conf Demo.start)
  /\ RECALBOX_MANIFEST (conf w') = RECALBOX_MANIFEST (conf Demo.start)
  /\ (exists cs, calls w' = calls Demo.start ++ cs /\ Forall is_stat_call cs)
  /\ forall field,
       field <> "key" -> field <> "name" ->
       RECALBOX_SYSTEM_DEFAULT (conf w') !! field
       = RECALBOX_SYSTEM_DEFAULT (conf Demo.start) !! field.
Proof.
  apply (init_system_touches_key_and_name {[ "system" := "atari" ]} Demo.start).
Defined.

Lemma upload_form_gets_manifest_witness :
  let self :=
    {| system_key := "atari"; system_path := "/roms/atari";
       system_manifest := SystemDefault |} in
  let w' := (RomListView.init_system {[ "system" := "atari" ]} Demo.start).2 in
  let given := RomListContext.get_upload_form_kwargs self DemoPages.base_context in
  given !! "system" = Some (CStr "atari")
  /\ given !! "system_manifest" = Some (CManifest SystemDefault)
  /\ (forall k, k <> "system" -> k <> "system_manifest" ->
                given !! k = DemoPages.base_context !! k)
  /\ deref SystemDefault w'
     = (Ok match RECALBOX_MANIFEST (conf Demo.start) !! "atari" with
           | Some entry => entry
           | None =>
               <["name" := PStr "atari"]>
                 (<["key" := PStr "atari"]> (RECALBOX_SYSTEM_DEFAULT (conf Demo.start)))
           end, w').
Proof.
  apply (upload_form_gets_manifest {[ "system" := "atari" ]} DemoPages.base_context
           {| system_key := "atari"; system_path := "/roms/atari";
              system_manifest := SystemDefault |}
           Demo.start
           (RomListView.init_system {[ "system" := "atari" ]} Demo.start).2).
  reflexivity.
Defined.

(** ** The template contexts *)

Lemma deref_spec r w :
  deref r w
  = (match r with
     | ManifestEntry key =>
         match RECALBOX_MANIFEST (conf w) !! key with
         | Some entry => Ok entry
         | None => Raise (KeyError key)
         end
     | SystemDefault => Ok (RECALBOX_SYSTEM_DEFAULT (conf w))
     end, w).
Proof.
  unfold deref, bind, get_settings, getitem; simpl.
  destruct r as [key|]; [|done].
  by destruct (RECALBOX_MANIFEST (conf w) !! key).
Qed.

Lemma rom_choices_count f path items :
  length (sorted_by_key fst (flat_map (rom_entry f path) items))
  = length (List.filter (rom_kept f path) items).
Proof.
  rewrite (Permutation_length (sorted_by_key_perm fst _)).
  by rewrite <- (rom_entry_names f path items), length_fmap.
Qed.

(** X4. Once [init_system] accepted the request, and with a manifest
    whose entries all have a name and a system directory that can be
    listed, [get_context_data] of the rom list adds to the context of
    [super] the key, the path, the display name (the configured name, or
    the key itself for a system the manifest does not know) and, as
    [total_roms], the number of listed entries that are visible regular
    files; it overrides these keys and keeps the others. *)
Theorem rom_context_shows_system
    (super_get_context_data : M (gmap string ctxval))
    (kwargs : gmap string string) (self : rom_view) (w0 w w' : world)
    (base : gmap string ctxval) (items : list string) :
  RomListView.init_system kwargs w0 = (Ok self, w) ->
  super_get_context_data w = (Ok base, w') ->
  fs w' = fs w -> conf w' = conf w ->
  named_manifest (RECALBOX_MANIFEST (conf w0)) ->
  fs_listdir (fs w) (system_path self) = Some items ->
  exists context cs,
    RomListContext.get_context_data super_get_context_data self w
    = (Ok context, logged w' cs)
    /\ context !! "system" = Some (CStr (system_key self))
    /\ context !! "system_path" = Some (CStr (system_path self))
    /\ context !! "system_name"
       = Some (CVal (display_name (RECALBOX_MANIFEST (conf w0)) (system_key self)))
    /\ context !! "system_manifest" = Some (CManifest (system_manifest self))
    /\ context !! "total_roms"
       = Some (CLen (length (List.filter (rom_kept (fs w) (system_path self)) items)))
    /\ forall k,
         k ∉ ["system"; "system_path"; "system_name"; "system_manifest"; "total_roms"] ->
         context !! k = base !! k.
Proof.
  intros Hinit Hsuper Hfs Hconf Hnamed Hls.
  pose proof (upload_form_gets_manifest_aux kwargs self w0 w Hinit) as Hderef.
  destruct (get_rom_choices_spec self w') as (cs & Hroms & _).
  unfold rom_choices_of in Hroms. rewrite Hfs, Hls in Hroms.
  set (name := display_name (RECALBOX_MANIFEST (conf w0)) (system_key self)).
  assert (Hname :
    forall d, deref (system_manifest self) w = (Ok d, w) -> d !! "name" = Some name).
  { intros d Hd. rewrite Hderef in Hd. injection Hd as <-. unfold name, display_name.
    destruct (RECALBOX_MANIFEST (conf w0) !! system_key self) as [entry|] eqn:Hentry.
    - by destruct (Hnamed _ _ Hentry) as [n ->].
    - by simplify_map_eq. }
  rewrite deref_spec in Hderef.
  pose proof (deref_spec (system_manifest self) w') as Hderef'.
  rewrite Hconf in Hderef'.
  destruct (match system_manifest self with
            | ManifestEntry key =>
                match RECALBOX_MANIFEST (conf w) !! key with
                | Some entry => Ok entry
                | None => Raise (KeyError key)
                end
            | SystemDefault => Ok (RECALBOX_SYSTEM_DEFAULT (conf w))
            end) as [d|e] eqn:Hd; [|by injection Hderef].
  specialize (Hname d). rewrite deref_spec, Hd in Hname.
  specialize (Hname eq_refl).
  eexists _, cs. split.
  - unfold RomListContext.get_context_data.
    erewrite bind_ok by exact Hsuper.
    erewrite bind_ok by exact Hderef'.
    unfold getitem. rewrite Hname.
    erewrite bind_ok by reflexivity.
    erewrite bind_ok by exact Hroms. reflexivity.
  - rewrite rom_choices_count.
    do 5 (split; [by simplify_map_eq|]).
    intros k Hk. rewrite !lookup_insert_ne; [done|..];
      intros <-; apply Hk; set_solver.
Qed.

Lemma rom_context_shows_system_witness :
  let w := (RomListView.init_system {[ "system" := "snes" ]} Demo.start).2 in
  exists context cs,
    RomListContext.get_context_data (ret DemoPages.base_context) Demo.snes w
    = (Ok context, logged w cs)
    /\ context !! "system" = Some (CStr "snes")
    /\ context !! "system_path" = Some (CStr "/roms/snes")
    /\ context !! "system_name"
       = Some (CVal (display_name Demo.manifest "snes"))
    /\ context !! "system_manifest" = Some (CManifest (ManifestEntry "snes"))
    /\ context !! "total_roms"
       = Some (CLen (length (List.filter (rom_kept (fs w) "/roms/snes")
                               ["zelda.smc"; ".hidden"; "mario.smc"; ".keep"; "saves"])))
    /\ forall k,
         k ∉ ["system"; "system_path"; "system_name"; "system_manifest"; "total_roms"] ->
         context !! k = DemoPages.base_context !! k.
Proof.
  apply (rom_context_shows_system (ret DemoPages.base_context)
           {[ "system" := "snes" ]} Demo.snes Demo.start
           (RomListView.init_system {[ "system" := "snes" ]} Demo.start).2
           (RomListView.init_system {[ "system" := "snes" ]} Demo.start).2
           DemoPages.base_context
           ["zelda.smc"; ".hidden"; "mario.smc"; ".keep"; "saves"]).
  - reflexivity.
  - reflexivity.
  - reflexivity.
  - reflexivity.
  - apply (bool_decide_unpack (map_Forall _ Demo.manifest)). vm_compute. reflexivity.
  - reflexivity.
Defined.

(** One turn of the loop of [get_system_list], whatever the manifest. *)
Lemma system_dirs_step_outcome path item acc w :
  exists r,
    SystemsListView.system_dirs_step path item acc w
    = (r, logged w [CallStat (Posixpath.join path item)])
    /\ ((r = Raise (KeyError "name")
         /\ nameless (fs w) (RECALBOX_MANIFEST (conf w)) path item)
        \/ ((exists acc', r = Ok acc')
            /\ ~ nameless (fs w) (RECALBOX_MANIFEST (conf w)) path item)).
Proof.
  unfold SystemsListView.system_dirs_step.
  rewrite (bind_ok _ _ _ _ _ (path_isdir_spec _ w)).
  unfold nameless, system_kept.
  destruct (is_directory _ && negb _) eqn:Hkept.
  - unfold bind, get_settings; simpl.
    destruct (RECALBOX_MANIFEST (conf w) !! item) as [entry|] eqn:Hentry.
    + unfold getitem. destruct (entry !! "name") as [name|] eqn:Hname.
      * eexists. split; [reflexivity|]. right. split; [by eexists|].
        intros (_ & entry' & [= <-] & Hnone). congruence.
      * eexists. split; [reflexivity|]. left. split; [done|].
        split; [done|]. by exists entry.
    + eexists. split; [reflexivity|]. right. split; [by eexists|].
      by intros (_ & entry' & [=] & _).
  - eexists. split; [reflexivity|]. right. split; [by eexists|].
    by intros ([=] & _).
Qed.

Lemma system_dirs_loop_outcome path items acc w :
  exists r cs,
    for_each items (SystemsListView.system_dirs_step path) acc w = (r, logged w cs)
    /\ Forall is_stat_call cs
    /\ ((exists item, item ∈ items
                      /\ nameless (fs w) (RECALBOX_MANIFEST (conf w)) path item) ->
        r = Raise (KeyError "name")).
Proof.
  revert acc w. induction items as [|item items IH]; intros acc w; simpl.
  - exists (Ok acc), []. rewrite logged_nil. split; [done|]. split; [done|].
    intros (item & Hin & _). by apply elem_of_nil in Hin.
  - destruct (system_dirs_step_outcome path item acc w)
      as (r & Hstep & [[-> Hbad]|[[acc' ->] Hgood]]).
    + exists (Raise (KeyError "name")), [CallStat (Posixpath.join path item)].
      split; [by erewrite bind_raise by exact Hstep|].
      split; [by repeat constructor|done].
    + destruct (IH acc' (logged w [CallStat (Posixpath.join path item)]))
        as (r & cs & Hloop & Hcs & Hraise).
      exists r, (CallStat (Posixpath.join path item) :: cs).
      split; [|split; [by constructor|]].
      * erewrite bind_ok by exact Hstep. rewrite Hloop. by rewrite logged_logged.
      * intros (bad & Hin & Hbad). apply Hraise.
        apply elem_of_cons in Hin as [->|Hin]; [done|]. by exists bad.
Qed.

(** X5. When a listed, visible directory of the root has a manifest entry
    without a ["name"], the systems listing raises [KeyError] for that
    key, whatever else the root holds. *)
Theorem get_system_list_nameless_entry (w : world) (items : list string) (item : string) :
  fs_listdir (fs w) (RECALBOX_ROMS_PATH (conf w)) = Some items ->
  item ∈ items ->
  nameless (fs w) (RECALBOX_MANIFEST (conf w)) (RECALBOX_ROMS_PATH (conf w)) item ->
  (SystemsListView.get_system_list w).1 = Raise (KeyError "name").
Proof.
  intros Hls Hin Hbad. unfold SystemsListView.get_system_list.
  unfold bind at 1, get_settings.
  set (path := RECALBOX_ROMS_PATH (conf w)) in *.
  pose proof (listdir_spec path w) as Hld. rewrite Hls in Hld.
  destruct (system_dirs_loop_outcome path items [] (logged w [CallListdir path]))
    as (r & cs & Hloop & _ & Hraise).
  erewrite bind_ok by exact Hld.
  rewrite (Hraise (ex_intro _ item (conj Hin Hbad))) in Hloop.
  by erewrite bind_raise by exact Hloop.
Qed.

Lemma get_system_list_nameless_entry_witness :
  (SystemsListView.get_system_list DemoPages.start_nameless).1
  = Raise (KeyError "name").
Proof.
  apply (get_system_list_nameless_entry DemoPages.start_nameless
           ["snes"; ".cache"; "readme.txt"; "atari"] "atari").
  - reflexivity.
  - apply (bool_decide_unpack ("atari" ∈ ["snes"; ".cache"; "readme.txt"; "atari"])).
    vm_compute. reflexivity.
  - split; [reflexivity|].
    exists {[ "extensions" := PList ["a26"] ]}.
    split; vm_compute; reflexivity.
Defined.

(** ** The listings: failures, effects, order *)

(** X6. [get_rom_choices] fails only when the system directory cannot be
    listed, and then with the [OSError] of [os.listdir], before any
    entry is looked at. *)
Theorem get_rom_choices_fails_unlisted (self : rom_view) (w : world) :
  (fs_listdir (fs w) (system_path self) = None ->
   RomListView.get_rom_choices self w
   = (Raise OSError, logged w [CallListdir (system_path self)]))
  /\ (forall e,
        (RomListView.get_rom_choices self w).1 = Raise e ->
        e = OSError /\ fs_listdir (fs w) (system_path self) = None).
Proof.
  split.
  - intros Hls. unfold RomListView.get_rom_choices.
    pose proof (listdir_spec (system_path self) w) as Hld. rewrite Hls in Hld.
    by erewrite bind_raise by exact Hld.
  - intros e. destruct (get_rom_choices_spec self w) as (cs & -> & _).
    unfold rom_choices_of; simpl.
    destruct (fs_listdir (fs w) (system_path self)); [done|].
    by intros [= <-].
Qed.

Lemma get_rom_choices_fails_unlisted_witness :
  let self := {| system_key := "nes"; system_path := "/roms/nes";
                 system_manifest := SystemDefault |} in
  (fs_listdir (fs Demo.start) "/roms/nes" = None ->
   RomListView.get_rom_choices self Demo.start
   = (Raise OSError, logged Demo.start [CallListdir "/roms/nes"]))
  /\ (forall e,
        (RomListView.get_rom_choices self Demo.start).1 = Raise e ->
        e = OSError /\ fs_listdir (fs Demo.start) "/roms/nes" = None).
Proof.
  apply (get_rom_choices_fails_unlisted
           {| system_key := "nes"; system_path := "/roms/nes";
              system_manifest := SystemDefault |} Demo.start).
Defined.

(** X7. Both listings only read: however they end, the world afterwards
    is the world before with [os.listdir] and [os.stat] calls logged;
    the filesystem, the settings and the flash messages are untouched
    and nothing is removed. *)
Theorem listings_only_read (self : rom_view) (w : world) :
  (exists cs,
      (RomListView.get_rom_choices self w).2 = logged w cs
      /\ Forall (fun c => ~ is_remove_call c) cs)
  /\ (exists cs,
        (SystemsListView.get_system_list w).2 = logged w cs
        /\ Forall (fun c => ~ is_remove_call c) cs).
Proof.
  split.
  - destruct (get_rom_choices_spec self w) as (cs & -> & Hcs). by exists cs.
  - unfold SystemsListView.get_system_list.
    unfold bind at 1, get_settings.
    set (path := RECALBOX_ROMS_PATH (conf w)).
    pose proof (listdir_spec path w) as Hld.
    destruct (fs_listdir (fs w) path) as [items|].
    + destruct (system_dirs_loop_outcome path items [] (logged w [CallListdir path]))
        as (r & cs & Hloop & Hcs & _).
      exists (CallListdir path :: cs). split.
      * erewrite bind_ok by exact Hld. unfold bind. rewrite Hloop.
        rewrite logged_logged. by destruct r.
      * constructor; [cbn; tauto|].
        eapply Forall_impl; [exact Hcs|]. intros []; cbn; tauto.
    + exists [CallListdir path]. split.
      * by erewrite bind_raise by exact Hld.
      * constructor; [cbn; tauto|constructor].
Qed.

Section SortedUnique.
Context {A : Type} (key : A -> string).

(** Sorting forgets the order of the input when equal keys mean equal
    elements. *)
Lemma sorted_by_key_unique (l l' : list A) :
  l ≡ₚ l' ->
  (forall x y, x ∈ l -> y ∈ l -> key x = key y -> x = y) ->
  sorted_by_key key l = sorted_by_key key l'.
Proof.
  intros Hperm Hkey.
  apply (StronglySorted_unique_strong (by_key key)).
  - intros x y Hx Hy Hxy Hyx.
    rewrite (sorted_by_key_perm key) in Hx.
    rewrite (sorted_by_key_perm key), <- Hperm in Hy.
    apply Hkey; [done|done|]. by apply String.leb_antisym.
  - apply sorted_by_key_ascending.
  - apply sorted_by_key_ascending.
  - by rewrite !sorted_by_key_perm.
Qed.
End SortedUnique.

Lemma rom_entry_same_stat f f' path item :
  same_stat f f' -> rom_entry f path item = rom_entry f' path item.
Proof. intros Hsame. unfold rom_entry, rom_kept. by rewrite Hsame. Qed.

(** X8. The ROM listing does not depend on the order in which the system
    enumerates the directory: two filesystems that answer [os.stat]
    alike and list the same entries in different orders give the same
    listing. *)
Theorem rom_listing_ignores_order (self : rom_view) (w w' : world)
    (items items' : list string) :
  same_stat (fs w) (fs w') ->
  fs_listdir (fs w) (system_path self) = Some items ->
  fs_listdir (fs w') (system_path self) = Some items' ->
  items ≡ₚ items' ->
  (RomListView.get_rom_choices self w).1 = (RomListView.get_rom_choices self w').1.
Proof.
  intros Hsame Hls Hls' Hperm.
  destruct (get_rom_choices_spec self w) as (cs & -> & _).
  destruct (get_rom_choices_spec self w') as (cs' & -> & _).
  unfold rom_choices_of; simpl. rewrite Hls, Hls'. f_equal.
  rewrite <- (flat_map_ext _ _ (fun item => rom_entry_same_stat _ _ _ item Hsame)).
  apply sorted_by_key_unique; [by apply Permutation_flat_map|].
  intros [name size] [name' size'] Hx Hy; simpl; intros <-.
  apply rom_entry_size in Hx, Hy. congruence.
Qed.

Lemma rom_listing_ignores_order_witness :
  (RomListView.get_rom_choices Demo.snes Demo.start).1
  = (RomListView.get_rom_choices Demo.snes DemoPages.start_shuffled).1.
Proof.
  apply (rom_listing_ignores_order Demo.snes Demo.start DemoPages.start_shuffled
           ["zelda.smc"; ".hidden"; "mario.smc"; ".keep"; "saves"]
           ["saves"; "mario.smc"; ".keep"; ".hidden"; "zelda.smc"]).
  - intros p. reflexivity.
  - reflexivity.
  - reflexivity.
  - apply (bool_decide_unpack
             (["zelda.smc"; ".hidden"; "mario.smc"; ".keep"; "saves"]
              ≡ₚ ["saves"; "mario.smc"; ".keep"; ".hidden"; "zelda.smc"])).
    vm_compute. reflexivity.
Defined.

Lemma get_system_list_named w items :
  fs_listdir (fs w) (RECALBOX_ROMS_PATH (conf w)) = Some items ->
  named_manifest (RECALBOX_MANIFEST (conf w)) ->
  exists cs,
    SystemsListView.get_system_list w
    = (Ok (sorted_by_key fst
             (flat_map (system_entry (fs w) (RECALBOX_MANIFEST (conf w))
                          (RECALBOX_ROMS_PATH (conf w))) items)),
       logged w cs).
Proof.
  intros Hls Hnamed. unfold SystemsListView.get_system_list.
  set (path := RECALBOX_ROMS_PATH (conf w)) in *.
  pose proof (listdir_spec path w) as Hld. rewrite Hls in Hld.
  destruct (system_dirs_loop_spec path items [] (logged w [CallListdir path]) Hnamed)
    as (cs & Hloop & _).
  simpl in Hloop. exists (CallListdir path :: cs).
  unfold bind at 1, get_settings. fold path.
  erewrite bind_ok by exact Hld. erewrite bind_ok by exact Hloop.
  unfold ret. by rewrite logged_logged.
Qed.

Lemma system_entry_same_stat f f' manifest path item :
  same_stat f f' -> system_entry f manifest path item = system_entry f' manifest path item.
Proof. intros Hsame. unfold system_entry, system_kept. by rewrite Hsame. Qed.

(** X9. With a manifest whose entries all have a name, the systems
    listing does not depend on the order in which the system enumerates
    the root: same settings, same answers of [os.stat] and the same
    entries in another order give the same list. *)
Theorem systems_listing_ignores_order (w w' : world) (items items' : list string) :
  conf w = conf w' ->
  same_stat (fs w) (fs w') ->
  named_manifest (RECALBOX_MANIFEST (conf w)) ->
  fs_listdir (fs w) (RECALBOX_ROMS_PATH (conf w)) = Some items ->
  fs_listdir (fs w') (RECALBOX_ROMS_PATH (conf w)) = Some items' ->
  items ≡ₚ items' ->
  (SystemsListView.get_system_list w).1 = (SystemsListView.get_system_list w').1.
Proof.
  intros Hconf Hsame Hnamed Hls Hls' Hperm.
  destruct (get_system_list_named w items Hls Hnamed) as (cs & ->).
  rewrite Hconf in Hls', Hnamed.
  destruct (get_system_list_named w' items' Hls' Hnamed) as (cs' & ->).
  simpl. f_equal. rewrite <- Hconf.
  rewrite <- (flat_map_ext _ _ (fun item => system_entry_same_stat _ _ _ _ item Hsame)).
  apply sorted_by_key_unique; [by apply Permutation_flat_map|].
  intros [key name] [key' name'] Hx Hy; simpl; intros <-.
  apply system_entry_name in Hx, Hy. congruence.
Qed.

Lemma systems_listing_ignores_order_witness :
  (SystemsListView.get_system_list Demo.start).1
  = (SystemsListView.get_system_list DemoPages.start_shuffled).1.
Proof.
  apply (systems_listing_ignores_order Demo.start DemoPages.start_shuffled
           ["snes"; ".cache"; "readme.txt"; "atari"]
           ["atari"; "readme.txt"; ".cache"; "snes"]).
  - reflexivity.
  - intros p. reflexivity.
  - apply (bool_decide_unpack (map_Forall _ Demo.manifest)). vm_compute. reflexivity.
  - reflexivity.
  - reflexivity.
  - apply (bool_decide_unpack
             (["snes"; ".cache"; "readme.txt"; "atari"]
              ≡ₚ ["atari"; "readme.txt"; ".cache"; "snes"])).
    vm_compute. reflexivity.
Defined.

(** X10. Where the system never lists a name twice, no filename appears
    twice in the ROM listing, and no name of it starts with ["."]. *)
Theorem rom_listing_names_distinct (self : rom_view) (w : world)
    (items : list string) (roms : list (string * N)) :
  fs_listdir (fs w) (system_path self) = Some items ->
  NoDup items ->
  (RomListView.get_rom_choices self w).1 = Ok roms ->
  NoDup roms.*1
  /\ Forall (fun name => Py.startswith name "." = false) roms.*1.
Proof.
  intros Hls Hnodup.
  destruct (get_rom_choices_spec self w) as (cs & -> & _).
  unfold rom_choices_of; simpl. rewrite Hls. intros [= <-].
  assert (Hnames :
    (sorted_by_key fst (flat_map (rom_entry (fs w) (system_path self)) items)).*1
    ≡ₚ List.filter (rom_kept (fs w) (system_path self)) items).
  { rewrite sorted_by_key_perm. by rewrite rom_entry_names. }
  rewrite Hnames. split.
  - apply NoDup_ListNoDup, List.NoDup_filter. by apply NoDup_ListNoDup.
  - apply Forall_forall. intros name Hin.
    apply list_elem_of_In, filter_In in Hin as [_ Hkept].
    unfold rom_kept in Hkept. apply andb_true_iff in Hkept as [_ Hvis].
    by apply negb_true_iff in Hvis.
Qed.

Lemma rom_listing_names_distinct_witness :
  NoDup [("mario.smc", 1024%N); ("zelda.smc", 2048%N)].*1
  /\ Forall (fun name => Py.startswith name "." = false)
       [("mario.smc", 1024%N); ("zelda.smc", 2048%N)].*1.
Proof.
  apply (rom_listing_names_distinct Demo.snes Demo.start
           ["zelda.smc"; ".hidden"; "mario.smc"; ".keep"; "saves"]).
  - reflexivity.
  - apply (bool_decide_unpack
             (NoDup ["zelda.smc"; ".hidden"; "mario.smc"; ".keep"; "saves"])).
    vm_compute. reflexivity.
  - vm_compute. reflexivity.
Defined.

(** X11. When [super] leaves the filesystem and the settings alone, the
    root can be listed and every manifest entry has a name, the context
    of the systems page is the context of [super] with ["systems_path"]
    set to the configured root and ["systems_list"] set to the systems
    listing; every other key of the context is kept. *)
Theorem systems_context_lists_systems
    (super_get_context_data : M (gmap string ctxval))
    (w w' : world) (base : gmap string ctxval) (items : list string) :
  super_get_context_data w = (Ok base, w') ->
  fs w' = fs w -> conf w' = conf w ->
  fs_listdir (fs w) (RECALBOX_ROMS_PATH (conf w)) = Some items ->
  named_manifest (RECALBOX_MANIFEST (conf w)) ->
  exists context systems cs,
    SystemsListContext.get_context_data super_get_context_data w
    = (Ok context, logged w' cs)
    /\ (SystemsListView.get_system_list w).1 = Ok systems
    /\ context !! "systems_path" = Some (CStr (RECALBOX_ROMS_PATH (conf w)))
    /\ context !! "systems_list" = Some (CSystems systems)
    /\ forall k, k <> "systems_path" -> k <> "systems_list" ->
                 context !! k = base !! k.
Proof.
  intros Hsuper Hfs Hconf Hls Hnamed.
  destruct (get_system_list_named w items Hls Hnamed) as (cs0 & Hlist0).
  rewrite <- Hfs, <- Hconf in Hls. rewrite <- Hconf in Hnamed.
  destruct (get_system_list_named w' items Hls Hnamed) as (cs & Hlist).
  rewrite Hfs, Hconf in Hlist.
  eexists _, _, cs. split; [|split; [by rewrite Hlist0|]].
  - unfold SystemsListContext.get_context_data.
    erewrite bind_ok by exact Hsuper.
    unfold bind at 1, get_settings.
    erewrite bind_ok by exact Hlist. rewrite Hconf. reflexivity.
  - split; [by simplify_map_eq|]. split; [by simplify_map_eq|].
    intros k Hp Hl. by rewrite !lookup_insert_ne.
Qed.

Lemma systems_context_lists_systems_witness :
  exists context systems cs,
    SystemsListContext.get_context_data (ret DemoPages.base_context) Demo.start
    = (Ok context, logged Demo.start cs)
    /\ (SystemsListView.get_system_list Demo.start).1 = Ok systems
    /\ context !! "systems_path" = Some (CStr "/roms")
    /\ context !! "systems_list" = Some (CSystems systems)
    /\ forall k, k <> "systems_path" -> k <> "systems_list" ->
                 context !! k = DemoPages.base_context !! k.
Proof.
  apply (systems_context_lists_systems (ret DemoPages.base_context)
           Demo.start Demo.start DemoPages.base_context
           ["snes"; ".cache"; "readme.txt"; "atari"]).
  - reflexivity.
  - reflexivity.
  - reflexivity.
  - reflexivity.
  - apply (bool_decide_unpack (map_Forall _ Demo.manifest)). vm_compute. reflexivity.
Defined.

(** ** Paths and the success messages *)

Lemma has_slash_append_slash (a name : string) :
  Posixpath.has_slash (a +:+ String "/" name) = true.
Proof.
  induction a as [|c a IH]; [done|].
  rewrite append_cons. simpl. rewrite IH. by destruct (Ascii.eqb c "/").
Qed.

Lemma basename_plain (name : string) :
  Posixpath.has_slash name = false -> Posixpath.basename name = name.
Proof.
  destruct name as [|c name]; [done|]. simpl.
  intros Hno. apply orb_false_iff in Hno as [Hc Hname]. by rewrite Hname, Hc.
Qed.

Lemma basename_after_slash (a name : string) :
  Posixpath.has_slash name = false ->
  Posixpath.basename (a +:+ String "/" name) = name.
Proof.
  intros Hno. induction a as [|c a IH].
  - change (Posixpath.basename (String "/" name) = name). simpl. by rewrite Hno.
  - rewrite append_cons. simpl. by rewrite has_slash_append_slash.
Qed.

Lemma endswith_slash_split (a : string) :
  Py.endswith_slash a = true -> exists a0, a = a0 +:+ "/".
Proof.
  induction a as [|c a IH]; [done|]. simpl.
  destruct a as [|c' a'].
  - intros Hc. apply Ascii.eqb_eq in Hc as ->. by exists "".
  - intros Hrest. destruct (IH Hrest) as [a0 ->]. by exists (String c a0).
Qed.

Lemma no_slash_not_absolute (name : string) :
  Posixpath.has_slash name = false -> Py.startswith name "/" = false.
Proof.
  destruct name as [|c name]; [done|].
  intros Hno. simpl in Hno. apply orb_false_iff in Hno as [Hc _].
  unfold Py.startswith. cbn [String.prefix].
  destruct (ascii_dec "/" c) as [<-|]; [by cbv in Hc|done].
Qed.

(** [basename] undoes [join] on names without a slash. *)
Lemma basename_join (dir name : string) :
  Posixpath.has_slash name = false ->
  Posixpath.basename (Posixpath.join dir name) = name.
Proof.
  intros Hno. unfold Posixpath.join.
  rewrite (no_slash_not_absolute name Hno).
  destruct (String.eqb dir "") eqn:Hdir; simpl.
  - apply String.eqb_eq in Hdir as ->. by apply basename_plain.
  - destruct (Py.endswith_slash dir) eqn:Hend.
    + destruct (endswith_slash_split dir Hend) as [a0 ->].
      rewrite append_assoc. by apply basename_after_slash.
    + by apply basename_after_slash.
Qed.

(** X12. The success messages show the names the user knows: when
    [save()] of the delete form returns the paths of names joined to a
    directory, names without a slash as [os.listdir] gives them, the
    message lists exactly these names joined by [", "]; when [save()] of
    the upload form returns such a path, the message ends in the name. *)
Theorem success_messages_name_files :
  (forall (form : form (option (list string))) (w w1 : world)
          (dir : string) (names : list string),
      names <> [] ->
      Forall (fun name => Posixpath.has_slash name = false) names ->
      save form w = (Ok (Some (Posixpath.join dir <$> names)), w1) ->
      exists w2,
        RomListView.delete_form_valid form w = (Ok tt, w2)
        /\ flash w2
           = flash w1 ++ [(SUCCESS, "Deleted file(s): " +:+ Py.join ", " names)])
  /\ (forall (form : form string) (w w1 : world) (dir name : string),
        Posixpath.has_slash name = false ->
        save form w = (Ok (Posixpath.join dir name), w1) ->
        exists w2,
          RomListView.upload_form_valid form w = (Ok tt, w2)
          /\ flash w2 = flash w1 ++ [(SUCCESS, "File has been uploaded: " +:+ name)]).
Proof.
  split.
  - intros form w w1 dir names Hsome Hplain Hsave.
    unfold RomListView.delete_form_valid.
    erewrite bind_ok by exact Hsave.
    assert (Hback : Posixpath.basename <$> (Posixpath.join dir <$> names) = names).
    { clear Hsome Hsave. induction Hplain as [|name names Hname _ IH]; [done|].
      rewrite !fmap_cons, IH. by rewrite basename_join. }
    destruct names as [|name names]; [done|].
    rewrite fmap_cons. rewrite format_deleted.
    rewrite <- fmap_cons, Hback. by eexists.
  - intros form w w1 dir name Hplain Hsave.
    unfold RomListView.upload_form_valid.
    erewrite bind_ok by exact Hsave.
    rewrite format_uploaded, basename_join by done. by eexists.
Qed.

Lemma success_messages_name_files_witness :
  (let w1 := (save Demo.two_deleted Demo.start).2 in
   exists w2,
     RomListView.delete_form_valid Demo.two_deleted Demo.start = (Ok tt, w2)
     /\ flash w2
        = flash w1
          ++ [(SUCCESS, "Deleted file(s): " +:+ Py.join ", " ["zelda.smc"; "mario.smc"])])
  /\ (exists w2,
        RomListView.upload_form_valid Demo.stored_upload Demo.start = (Ok tt, w2)
        /\ flash w2
           = flash Demo.start ++ [(SUCCESS, "File has been uploaded: " +:+ "yoshi.smc")]).
Proof.
  split.
  - apply (proj1 success_messages_name_files Demo.two_deleted Demo.start
             (save Demo.two_deleted Demo.start).2 "/roms/snes"
             ["zelda.smc"; "mario.smc"]).
    + discriminate.
    + repeat constructor.
    + reflexivity.
  - apply (proj2 success_messages_name_files Demo.stored_upload Demo.start
             Demo.start "/roms/snes" "yoshi.smc").
    + reflexivity.
    + reflexivity.
Defined.

(** ** The JSON error answer *)

Lemma error_msg_step_cases form msg :
  RomUploadJsonView.error_msg_step form msg = msg
  \/ (any_form_key form = "upload"
      /\ rom_messages form <> []
      /\ RomUploadJsonView.error_msg_step form msg
         = Py.join Py.newline (rom_messages form)).
Proof.
  unfold RomUploadJsonView.error_msg_step, rom_messages.
  destruct (String.eqb _ _) eqn:Hkey; [|by left].
  apply String.eqb_eq in Hkey.
  destruct (any_form_errors form !! "rom") as [[|m [|m' ms]]|]; simpl;
    [by left|by right|by right|by left].
Qed.

Lemma error_msg_origin forms msg :
  let final := foldl (fun msg form => RomUploadJsonView.error_msg_step form msg) msg forms in
  final = msg
  \/ exists form,
       form ∈ forms
       /\ any_form_key form = "upload"
       /\ rom_messages form <> []
       /\ final = Py.join Py.newline (rom_messages form).
Proof.
  cbv zeta. revert msg. induction forms as [|form forms IH]; intros msg; simpl.
  - by left.
  - destruct (IH (RomUploadJsonView.error_msg_step form msg))
      as [->|(later & Hin & Hrest)].
    + destruct (error_msg_step_cases form msg) as [->|Hhere]; [by left|].
      right. exists form. split; [left|]. exact Hhere.
    + right. exists later. split; [by right|done].
Qed.

Lemma dumps_raises_decode_error d e :
  Json.dumps d = Raise e -> e = UnicodeDecodeError.
Proof.
  assert (Hstring : forall s e', Json.encode_string s = Raise e' -> e' = UnicodeDecodeError).
  { intros s e'. unfold Json.encode_string, Json.escape.
    destruct (Json.decode_utf8 _); [done|]. by intros [= <-]. }
  assert (Hitems : forall e', Json.encode_items d = Raise e' -> e' = UnicodeDecodeError).
  { induction d as [|kv d IH]; intros e'; simpl; [done|].
    unfold Json.encode_item.
    destruct (Json.encode_string kv.1) as [key|e1] eqn:Hkey;
      [|intros [= <-]; by apply (Hstring kv.1)].
    destruct (Json.encode_string kv.2) as [value|e2] eqn:Hvalue;
      [|intros [= <-]; by apply (Hstring kv.2)].
    destruct (Json.encode_items d) as [items|e3]; [done|].
    intros [= <-]. by apply IH. }
  unfold Json.dumps. destruct (Json.encode_items d) as [items|e'] eqn:Hd; [done|].
  intros [= <-]. by apply Hitems.
Qed.

(** X13. Whatever forms [form_invalid] is given, the text it reports is
    never empty: it is either the fixed text ["Unknow error occured"],
    or the messages of the ["rom"] field of a form keyed ["upload"]
    among the arguments, joined by line feeds; no other field and no
    other form can supply it. The view answers 400 with the body
    [json.dumps] makes of [{"error": text}], and the only exception it
    can raise is the [UnicodeDecodeError] of [json.dumps]. *)
Theorem form_invalid_reports_rom_or_unknown (args : list any_form) :
  exists text,
    text <> ""
    /\ (text = "Unknow error occured"
        \/ exists form,
             form ∈ args
             /\ any_form_key form = "upload"
             /\ rom_messages form <> []
             /\ text = Py.join Py.newline (rom_messages form))
    /\ match Json.dumps [("error", text)] with
       | Ok body =>
           exists r,
             RomUploadJsonView.form_invalid args = Ok r
             /\ status_code r = 400%N
             /\ content r = body
       | Raise e =>
           e = UnicodeDecodeError
           /\ RomUploadJsonView.form_invalid args = Raise e
       end.
Proof.
  pose proof (form_invalid_content args) as Hcontent. cbv zeta in Hcontent.
  assert (Hanswer : forall text,
    RomUploadJsonView.form_invalid args
    = RomUploadJsonView.json_response (BackendDict [("error", text)])
        HttpResponseBadRequest ->
    match Json.dumps [("error", text)] with
    | Ok body =>
        exists r,
          RomUploadJsonView.form_invalid args = Ok r
          /\ status_code r = 400%N
          /\ content r = body
    | Raise e =>
        e = UnicodeDecodeError /\ RomUploadJsonView.form_invalid args = Raise e
    end).
  { intros text ->.
    pose proof (json_response_dict [("error", text)] HttpResponseBadRequest) as Hdict.
    destruct (Json.dumps [("error", text)]) as [body|e] eqn:Hdumps; [done|].
    split; [by apply (dumps_raises_decode_error _ _ Hdumps)|done]. }
  destruct (error_msg_origin args "") as [Hnone|Hsome]; cbv zeta in *.
  - exists "Unknow error occured". rewrite Hnone in Hcontent.
    split; [done|]. split; [by left|]. by apply Hanswer.
  - destruct Hsome as (form & Hin & Hkey & Hmsgs & Hfinal).
    rewrite Hfinal in Hcontent.
    destruct (Py.join Py.newline (rom_messages form)) as [|c text] eqn:Hjoin.
    + exists "Unknow error occured".
      split; [done|]. split; [by left|]. by apply Hanswer.
    + exists (String c text).
      split; [done|]. split; [|by apply Hanswer].
      right. exists form. by rewrite Hjoin.
Qed.

(** The two bytes of an e with acute accent are one escape; a byte that
    is not UTF-8 makes [json.dumps] raise, and [form_invalid] with it. *)
Example dumps_utf8_ex :
  Json.dumps [("error", String "195" (String "169" EmptyString))]
  = Ok (json_object1 "error" "\u00e9").
Proof. reflexivity. Qed.

Example form_invalid_not_utf8_ex :
  RomUploadJsonView.form_invalid
    [AnUploadForm {| form_key := "upload";
                     errors := {[ "rom" := [String "255" EmptyString] ]};
                     save := raise OSError |}]
  = Raise UnicodeDecodeError.
Proof. vm_compute. reflexivity. Qed.
